(** * EmailService: error classification, retry and delivery

    A shallow embedding of the class [EmailService] and of the fragment of
    JavaScript its methods rely on: conversion of a value to a string,
    [toLowerCase], [includes], the regular expressions [/\b(4\d\d)\b/] and
    [/\b(5\d\d)\b/], [parseInt], truthiness, property access, exceptions,
    [async] methods and promises that are not awaited.

    The repository holds three versions of the service.  The definitions at
    top level follow the latest one ([unnamed/part_000]): [categorizeError],
    [getErrorDetails], [sendWithRetry], [isRetryableError], [sendEmail],
    [sendRegistrationApproved], [notifySuperAdmin].  The modules [V1] and
    [V2] follow the two versions in [server/services/emailService.ts] where
    they differ; [isRetryableError] is the same in all three.

    Conventions.
    - JavaScript strings are modelled as [string] (sequences of 8-bit
      characters); [toLowerCase] acts on the letters [A]-[Z] only.
    - A JavaScript number is modelled by [JNumber z] for an integer [z]
      (a safe integer, printed by [String] in plain decimal) or by [JNaN].
    - A value thrown is a [JsVal]; a function that may throw returns a
      [Result]; an [async] method is a function on the [World], which holds
      the clock, the effects on the collaborators and the console.
    - The collaborators (nodemailer's transporter, the storage, the
      templates) are fields of [Service]: each tells what a call resolves
      to or rejects with, and how long it takes. *)

From Stdlib Require Import ZArith List Bool Ascii String Lia.
From Stdlib Require Import Numbers.DecimalString Numbers.DecimalPos.
Import ListNotations.

Open Scope string_scope.
Open Scope Z_scope.

(** ** JavaScript values *)

Inductive JsPrim : Type :=
| JUndefined
| JNull
| JBool (b : bool)
| JNumber (n : Z)
| JNaN
| JString (s : string).

(** A raw error ([error: any]): a primitive, an instance of [Error] with
    its [name], [message] and the optional fields [responseCode] and [code]
    that nodemailer attaches, or a plain object with these two fields. *)
Inductive JsVal : Type :=
| Prim (p : JsPrim)
| ErrorObj (name message : string) (responseCode code : JsPrim)
| PlainObj (responseCode code : JsPrim).

Inductive Result (A : Type) : Type :=
| Ok (a : A)
| Throw (e : JsVal).
Arguments Ok {A} a.
Arguments Throw {A} e.

Definition TypeError (message : string) : JsVal :=
  ErrorObj "TypeError" message JUndefined JUndefined.

(** [!!p] for a primitive. *)
Definition truthyPrim (p : JsPrim) : bool :=
  match p with
  | JUndefined | JNull | JNaN => false
  | JBool b => b
  | JNumber n => negb (n =? 0)
  | JString s => negb (s =? "")%string
  end.

(** [!!v]: every object is truthy. *)
Definition truthy (v : JsVal) : bool :=
  match v with
  | Prim p => truthyPrim p
  | ErrorObj _ _ _ _ | PlainObj _ _ => true
  end.

Definition isNullish (v : JsVal) : bool :=
  match v with
  | Prim JUndefined | Prim JNull => true
  | _ => false
  end.

(** [Number.prototype.toString] on an integer. *)
Definition numberToString (n : Z) : string :=
  NilZero.string_of_int (Z.to_int n).

(** [String(p)]. *)
Definition primToString (p : JsPrim) : string :=
  match p with
  | JUndefined => "undefined"
  | JNull => "null"
  | JBool true => "true"
  | JBool false => "false"
  | JNumber n => numberToString n
  | JNaN => "NaN"
  | JString s => s
  end.

(** [Error.prototype.toString]. *)
Definition errorToString (name message : string) : string :=
  if (name =? "")%string then message
  else if (message =? "")%string then name
  else name ++ ": " ++ message.

(** [String(v)]. *)
Definition toString (v : JsVal) : string :=
  match v with
  | Prim p => primToString p
  | ErrorObj name message _ _ => errorToString name message
  | PlainObj _ _ => "[object Object]"
  end.

(** [v instanceof Error]. *)
Definition instanceofError (v : JsVal) : bool :=
  match v with
  | ErrorObj _ _ _ _ => true
  | _ => false
  end.

Definition message (v : JsVal) : string :=
  match v with
  | ErrorObj _ m _ _ => m
  | _ => ""
  end.

Inductive Field : Type := F_responseCode | F_code.

Definition fieldName (f : Field) : string :=
  match f with
  | F_responseCode => "responseCode"
  | F_code => "code"
  end.

(** [v.f]: reading a property of [null] or [undefined] throws a
    [TypeError]; the other primitives have no such property. *)
Definition getProp (v : JsVal) (f : Field) : Result JsPrim :=
  match v with
  | Prim JUndefined | Prim JNull =>
      Throw (TypeError ("Cannot read properties of " ++ toString v
                        ++ " (reading '" ++ fieldName f ++ "')"))
  | Prim _ => Ok JUndefined
  | ErrorObj _ _ rc c | PlainObj rc c =>
      Ok match f with F_responseCode => rc | F_code => c end
  end.

(** ** Strings *)

Definition isUpper (c : ascii) : bool :=
  let n := nat_of_ascii c in (65 <=? n)%nat && (n <=? 90)%nat.

Definition lowerChar (c : ascii) : ascii :=
  if isUpper c then ascii_of_nat (nat_of_ascii c + 32) else c.

Fixpoint toLowerCase (s : string) : string :=
  match s with
  | EmptyString => EmptyString
  | String c s' => String (lowerChar c) (toLowerCase s')
  end.

Fixpoint startsWith (s pat : string) {struct pat} : bool :=
  match pat, s with
  | EmptyString, _ => true
  | String _ _, EmptyString => false
  | String p pat', String c s' => Ascii.eqb c p && startsWith s' pat'
  end.

(** [s.includes(pat)]. *)
Fixpoint includes (s pat : string) : bool :=
  startsWith s pat
  || match s with
     | EmptyString => false
     | String _ s' => includes s' pat
     end.

Definition isDigit (c : ascii) : bool :=
  let n := nat_of_ascii c in (48 <=? n)%nat && (n <=? 57)%nat.

(** The class [\w] of a regular expression: [[A-Za-z0-9_]]. *)
Definition isWordChar (c : ascii) : bool :=
  let n := nat_of_ascii c in
  isDigit c || isUpper c || ((97 <=? n)%nat && (n <=? 122)%nat) || (n =? 95)%nat.

(** [\b] at the start of [s], after a word character. *)
Definition boundaryAfterWord (s : string) : bool :=
  match s with
  | EmptyString => true
  | String c _ => negb (isWordChar c)
  end.

(** [s.match(/\b(Ldd)\b/)] for a leading digit [L]: the first capture of
    the leftmost match, [None] for [null].  [prevWord] tells whether the
    character before [s] is a word character. *)
Fixpoint matchCodeFrom (lead : ascii) (prevWord : bool) (s : string)
  : option string :=
  match s with
  | EmptyString => None
  | String c s' =>
      let here :=
        match s' with
        | String d1 (String d2 rest) =>
            negb prevWord && Ascii.eqb c lead && isDigit d1 && isDigit d2
            && boundaryAfterWord rest
        | _ => false
        end in
      if here
      then match s' with
           | String d1 (String d2 _) =>
               Some (String c (String d1 (String d2 EmptyString)))
           | _ => None
           end
      else matchCodeFrom lead (isWordChar c) s'
  end.

Definition matchCode (lead : ascii) (s : string) : option string :=
  matchCodeFrom lead false s.

(** ** [parseInt] *)

Definition isWhiteSpace (c : ascii) : bool :=
  let n := nat_of_ascii c in
  ((9 <=? n)%nat && (n <=? 13)%nat) || (n =? 32)%nat.

Fixpoint skipWhiteSpace (s : string) : string :=
  match s with
  | String c s' => if isWhiteSpace c then skipWhiteSpace s' else s
  | EmptyString => s
  end.

(** The value of a digit in the given radix, when it is one. *)
Definition digitValue (radix : Z) (c : ascii) : option Z :=
  let n := Z.of_nat (nat_of_ascii c) in
  let v :=
    if isDigit c then Some (n - 48)
    else if (97 <=? n) && (n <=? 122) then Some (n - 87)
    else if (65 <=? n) && (n <=? 90) then Some (n - 55)
    else None in
  match v with
  | Some d => if d <? radix then Some d else None
  | None => None
  end.

(** The longest prefix of digits, read from the left; [None] when there is
    no digit at all. *)
Fixpoint parseDigits (radix : Z) (acc : option Z) (s : string) : option Z :=
  match s with
  | EmptyString => acc
  | String c s' =>
      match digitValue radix c with
      | Some d =>
          parseDigits radix
            (Some (match acc with Some a => a * radix + d | None => d end)) s'
      | None => acc
      end
  end.

(** [parseInt(s)] without a radix; [None] is [NaN].  Leading white space is
    skipped, then a sign and the prefix [0x] or [0X] are read. *)
Definition parseInt (s : string) : option Z :=
  let s1 := skipWhiteSpace s in
  let '(sign, s2) :=
    match s1 with
    | String c r =>
        if Ascii.eqb c "-" then (-1, r)
        else if Ascii.eqb c "+" then (1, r)
        else (1, s1)
    | EmptyString => (1, s1)
    end in
  let '(radix, s3) :=
    match s2 with
    | String c0 (String c1 r) =>
        if Ascii.eqb c0 "0" && (Ascii.eqb c1 "x" || Ascii.eqb c1 "X")
        then (16, r) else (10, s2)
    | _ => (10, s2)
    end in
  option_map (Z.mul sign) (parseDigits radix None s3).

(** [lo <= n && n <= hi] on a number that may be [NaN]. *)
Definition inRange (lo hi : Z) (n : option Z) : bool :=
  match n with
  | Some z => (lo <=? z) && (z <=? hi)
  | None => false
  end.

(** ** Computations that may throw *)

Definition bindR {A B : Type} (c : Result A) (k : A -> Result B) : Result B :=
  match c with
  | Ok a => k a
  | Throw e => Throw e
  end.

Notation "'let?' x ':=' c 'in' k" := (bindR c (fun x => k))
  (at level 10, x name, c at level 100, k at level 200).

(** ** The error classifier *)

Inductive ErrorCategory : Type :=
| AUTHENTICATION_FAILED
| CONNECTION_REFUSED
| CONNECTION_RESET
| SOCKET_HANG_UP
| TIMEOUT
| TLS_SSL_ERROR
| DNS_LOOKUP_FAILED
| NETWORK_ERROR
| SMTP_PROTOCOL_ERROR
| UNKNOWN_ERROR.

(** The string each category is in the source. *)
Definition categoryName (c : ErrorCategory) : string :=
  match c with
  | AUTHENTICATION_FAILED => "AUTHENTICATION_FAILED"
  | CONNECTION_REFUSED => "CONNECTION_REFUSED"
  | CONNECTION_RESET => "CONNECTION_RESET"
  | SOCKET_HANG_UP => "SOCKET_HANG_UP"
  | TIMEOUT => "TIMEOUT"
  | TLS_SSL_ERROR => "TLS_SSL_ERROR"
  | DNS_LOOKUP_FAILED => "DNS_LOOKUP_FAILED"
  | NETWORK_ERROR => "NETWORK_ERROR"
  | SMTP_PROTOCOL_ERROR => "SMTP_PROTOCOL_ERROR"
  | UNKNOWN_ERROR => "UNKNOWN_ERROR"
  end.

Definition isSome {A : Type} (o : option A) : bool :=
  match o with Some _ => true | None => false end.

(** The lowercased text both classifiers match against. *)
Definition errorStringOf (error : JsVal) : string :=
  toLowerCase (toString error).

Definition authenticationPatterns : list string :=
  ["authentication"; "auth failed"; "invalid login"; "535"].

Definition categorizeError (error : JsVal) : Result ErrorCategory :=
  let errorString := errorStringOf error in
  (* Authentication errors *)
  if includes errorString "authentication" || includes errorString "auth failed"
     || includes errorString "invalid login" || includes errorString "535"
  then Ok AUTHENTICATION_FAILED
  (* Connection errors *)
  else if includes errorString "econnrefused"
          || includes errorString "connection refused"
  then Ok CONNECTION_REFUSED
  else if includes errorString "econnreset"
          || includes errorString "connection reset"
  then Ok CONNECTION_RESET
  else if includes errorString "socket hang up"
  then Ok SOCKET_HANG_UP
  (* Timeout errors *)
  else if includes errorString "timeout" || includes errorString "etimedout"
  then Ok TIMEOUT
  (* TLS/SSL errors *)
  else if includes errorString "tls" || includes errorString "ssl"
          || includes errorString "certificate"
  then Ok TLS_SSL_ERROR
  (* DNS errors *)
  else if includes errorString "enotfound" || includes errorString "getaddrinfo"
  then Ok DNS_LOOKUP_FAILED
  (* Network errors *)
  else if includes errorString "network"
  then Ok NETWORK_ERROR
  (* SMTP protocol errors *)
  else
    let? rc := getProp error F_responseCode in
    if truthyPrim rc || isSome (matchCode "5" errorString)
    then Ok SMTP_PROTOCOL_ERROR
    else Ok UNKNOWN_ERROR.

Definition retryablePatterns : list string :=
  [ "network"; "timeout"; "econnrefused"; "econnreset"; "etimedout";
    "temporary failure"; "connection timeout"; "socket hang up" ].

Definition isRetryableError (error : JsVal) : Result bool :=
  if negb (truthy error) then Ok false else
  let errorString := errorStringOf error in
  (* SMTP 4xx status codes in the text *)
  let smtpCodeMatch := matchCode "4" errorString in
  if match smtpCodeMatch with
     | Some m => inRange 400 499 (parseInt m)
     | None => false
     end
  then Ok true else
  (* the responseCode and code properties *)
  let? rc := getProp error F_responseCode in
  if truthyPrim rc && inRange 400 499 (parseInt (primToString rc))
  then Ok true else
  let? c := getProp error F_code in
  if truthyPrim c
     && match c with
        | JNumber n => (400 <=? n) && (n <=? 499)
        | _ => false
        end
  then Ok true else
  (* common transient error patterns *)
  Ok (existsb (fun pattern => includes errorString pattern) retryablePatterns).

(** [process.env]: the variables the service reads. *)
Record ProcessEnv : Type := {
  SMTP_HOST : option string;
  SMTP_PORT : option string;
  SMTP_FROM : option string
}.

(** A template literal prints an unset variable as [undefined]. *)
Definition interpolate (v : option string) : string :=
  match v with Some s => s | None => "undefined" end.

Definition getErrorDetails (env : ProcessEnv) (error : JsVal)
  (category : ErrorCategory) : string :=
  let errorMessage :=
    if instanceofError error then message error else toString error in
  let host := interpolate (SMTP_HOST env) in
  let port := interpolate (SMTP_PORT env) in
  match category with
  | AUTHENTICATION_FAILED =>
      "Authentication failed. Check SMTP_USER and SMTP_PASS credentials. Error: "
      ++ errorMessage
  | CONNECTION_REFUSED =>
      "Connection refused to SMTP server " ++ host ++ ":" ++ port
      ++ ". Verify host and port are correct."
  | CONNECTION_RESET =>
      "Connection was reset by the SMTP server. This may indicate firewall issues or server problems."
  | SOCKET_HANG_UP =>
      "Connection was unexpectedly closed by the server. Check server stability."
  | TIMEOUT =>
      "Connection timed out while trying to reach " ++ host ++ ":" ++ port
      ++ ". Check network connectivity and firewall rules."
  | TLS_SSL_ERROR =>
      "TLS/SSL error. Check if port " ++ port
      ++ " requires SSL (465) or TLS (587). Error: " ++ errorMessage
  | DNS_LOOKUP_FAILED =>
      "DNS lookup failed for " ++ host ++ ". Verify the SMTP_HOST is correct."
  | NETWORK_ERROR => "Network error occurred: " ++ errorMessage
  | SMTP_PROTOCOL_ERROR => "SMTP protocol error. Server response: " ++ errorMessage
  | UNKNOWN_ERROR => errorMessage
  end.

(** ** Data of the delivery path *)

Definition Metadata : Type := list (string * JsPrim).

Fixpoint lookupProp (m : Metadata) (k : string) : JsPrim :=
  match m with
  | [] => JUndefined
  | (k', v) :: m' => if (k' =? k)%string then v else lookupProp m' k
  end.

(** [{...m, k: v}]: an existing key keeps its place and takes the new
    value, a new key goes last. *)
Fixpoint setProp (m : Metadata) (k : string) (v : JsPrim) : Metadata :=
  match m with
  | [] => [(k, v)]
  | (k', v') :: m' =>
      if (k' =? k)%string then (k', v) :: m' else (k', v') :: setProp m' k v
  end.

Module MailOptions.
Record t : Type := { from : string; to : string; subject : string; html : string }.
End MailOptions.

Module EmailOptions.
Record t : Type :=
  { to : string; subject : string; html : string; metadata : option Metadata }.
End EmailOptions.

(** The argument of [storage.createEmailLog]: the audit record. *)
Module EmailLog.
Record t : Type := {
  recipientEmail : string;
  recipientName : option string;
  subject : string;
  templateType : string;
  status : string;
  metadata : Metadata;
  errorMessage : option string
}.
End EmailLog.

Module User.
Record t : Type := { role : string; email : option string }.
End User.

(** The object [sendWithRetry] resolves to, which [sendEmail] returns. *)
Record SendResult : Type := {
  success : bool;
  messageId : option string;
  error : option string;
  retryCount : Z;
  errorCategory : option ErrorCategory
}.

(** The arguments of one [notifySuperAdmin] call. *)
Module Notify.
Record t : Type := {
  emailType : string;
  recipientEmail : string;
  recipientName : string;
  eventName : JsPrim;
  additionalDetails : Metadata
}.
End Notify.

(** ** The world: collaborators, clock and observable effects *)

(** What an awaited call of a collaborator does: the time it takes, in
    milliseconds, and the value it resolves to or rejects with. *)
Definition Awaited (A : Type) : Type := (Z * Result A)%type.

(** nodemailer's transporter: the outcome of its [k]-th [sendMail] call
    (counted from 0) on the given options; it resolves to [info.messageId]. *)
Definition Transporter : Type := nat -> MailOptions.t -> Awaited string.

Inductive Event : Type :=
| SendMail (mailOptions : MailOptions.t)
| SetTimeout (delayMs : Z)
| CreateEmailLog (log : EmailLog.t)
| GetUsers
| Detached (task : Notify.t).

(** What the service writes to the console; one constructor for each
    group of [console] calls of the source. *)
Inductive Console : Type :=
| DevModeEmailWouldBeSent       (* [DEV MODE] Email would be sent: ... *)
| AttemptingToSend (attempt maxRetries : Z)
| EmailSentMessageId (id : string)
| EmailSendFailed (attempt maxRetries : Z) (category : ErrorCategory)
    (details : string)          (* Email send failed, category, details *)
| RetryingIn (delayMs : Z)
| GivingUp                      (* Max retries reached or not retryable *)
| FailedToLogEmail              (* Failed to log email to database *)
| DevModeEmailLogged
| EmailSentTo
| EmailSendFailedTo
| FailedToNotifySuperadmin      (* the handler of the detached call *)
| NoSuperadminFound             (* No superadmin found to notify *)
| DevModeAdminNotification
| AdminNotificationSent
| FailedToSendAdminNotification.

Inductive Level : Type := ConsoleLog | ConsoleWarn | ConsoleError.

(** [console.log], [console.warn] or [console.error] at each site. *)
Definition level (c : Console) : Level :=
  match c with
  | EmailSendFailed _ _ _ _ | GivingUp | EmailSendFailedTo
  | FailedToNotifySuperadmin | FailedToSendAdminNotification => ConsoleError
  | FailedToLogEmail | NoSuperadminFound => ConsoleWarn
  | _ => ConsoleLog
  end.

Record World : Type := {
  now : Z;                    (* Date.now() *)
  sendMailCalls : nat;        (* calls of transporter.sendMail so far *)
  events : list Event;        (* effects on the collaborators, oldest first *)
  console : list Console      (* lines written to the console, oldest first *)
}.

(** The service object with the modules it imports. *)
Record Service : Type := {
  env : ProcessEnv;
  isDevelopmentMode : bool;
  transporter : option Transporter;
  createEmailLog : EmailLog.t -> Awaited unit;
  getUsers : Awaited (list User.t);
  generateRegistrationApprovedEmail : string -> string -> string -> string -> string;
  generateAdminNotificationEmail :
    string -> string -> string -> JsPrim -> Metadata -> string
}.

(** An [async] method: a world transformer that resolves or rejects. *)
Definition M (A : Type) : Type := World -> Result A * World.

Definition ret {A : Type} (a : A) : M A := fun w => (Ok a, w).

Definition throw {A : Type} (e : JsVal) : M A := fun w => (Throw e, w).

Definition bind {A B : Type} (c : M A) (k : A -> M B) : M B :=
  fun w =>
    match c w with
    | (Ok a, w') => k a w'
    | (Throw e, w') => (Throw e, w')
    end.

Notation "x <- c ;; k" := (bind c (fun x => k))
  (at level 61, c at next level, right associativity).
Notation "c ;; k" := (bind c (fun _ => k))
  (at level 61, right associativity).

(** [try { c } catch (e) { h e }]. *)
Definition tryCatch {A : Type} (c : M A) (h : JsVal -> M A) : M A :=
  fun w =>
    match c w with
    | (Ok a, w') => (Ok a, w')
    | (Throw e, w') => h e w'
    end.

Definition liftR {A : Type} (r : Result A) : M A := fun w => (r, w).

Definition emit (ev : Event) : M unit :=
  fun w => (Ok tt, {| now := now w; sendMailCalls := sendMailCalls w;
                      events := events w ++ [ev]; console := console w |}).

Definition print (c : Console) : M unit :=
  fun w => (Ok tt, {| now := now w; sendMailCalls := sendMailCalls w;
                      events := events w; console := console w ++ [c] |}).

Definition elapse (ms : Z) : M unit :=
  fun w => (Ok tt, {| now := now w + ms; sendMailCalls := sendMailCalls w;
                      events := events w; console := console w |}).

Definition dateNow : M Z := fun w => (Ok (now w), w).

(** [await c]: the call takes its time, then resolves or rejects. *)
Definition await {A : Type} (c : Awaited A) : M A :=
  elapse (fst c) ;; liftR (snd c).

(** [await t.sendMail(mailOptions)]. *)
Definition sendMail (t : Transporter) (mailOptions : MailOptions.t) : M string :=
  fun w =>
    (emit (SendMail mailOptions) ;;
     await (t (sendMailCalls w) mailOptions))
      {| now := now w; sendMailCalls := S (sendMailCalls w);
         events := events w; console := console w |}.

(** The delay a timer really waits: Node sets a delay below 1 or above
    2147483647 to 1. *)
Definition timerDelay (delayMs : Z) : Z :=
  if (delayMs <? 1) || (2147483647 <? delayMs) then 1 else delayMs.

(** [await new Promise(resolve => setTimeout(resolve, delayMs))]. *)
Definition sleep (delayMs : Z) : M unit :=
  emit (SetTimeout delayMs) ;; elapse (timerDelay delayMs).

(** A promise that is started and not awaited: its work is recorded, to be
    run by [runDetached] after the caller has its result. *)
Definition detach (task : Notify.t) : M unit := emit (Detached task).

(** [a || b] on strings that may be missing. *)
Definition orElse (a : option string) (b : string) : string :=
  match a with
  | Some s => if (s =? "")%string then b else s
  | None => b
  end.

(** [a || null]. *)
Definition orNull (a : option string) : option string :=
  match a with
  | Some s => if (s =? "")%string then None else Some s
  | None => None
  end.

Definition defaultFrom : string :=
  String "034" "BootFeet 2K26" ++ String "034" " <noreply@bootfeet.com>".

(** ** The service, as in [unnamed/part_000] *)

(** The constructor: SMTP is configured when host, user and password are
    all set and non-empty; [createTransport] is nodemailer's. *)
Definition hasSmtpConfig (host user pass : option string) : bool :=
  negb (orElse host "" =? "")%string && negb (orElse user "" =? "")%string
  && negb (orElse pass "" =? "")%string.

Definition constructor (penv : ProcessEnv) (SMTP_USER SMTP_PASS : option string)
  (createTransport : Transporter)
  (createEmailLog : EmailLog.t -> Awaited unit)
  (getUsers : Awaited (list User.t))
  (approved : string -> string -> string -> string -> string)
  (adminNotification : string -> string -> string -> JsPrim -> Metadata -> string)
  : Service :=
  let configured := hasSmtpConfig (SMTP_HOST penv) SMTP_USER SMTP_PASS in
  {| env := penv;
     isDevelopmentMode := negb configured;
     transporter := if configured then Some createTransport else None;
     createEmailLog := createEmailLog;
     getUsers := getUsers;
     generateRegistrationApprovedEmail := approved;
     generateAdminNotificationEmail := adminNotification |}.

(** [Math.pow(2, attempt - 1) * 1000], for [attempt >= 1]. *)
Definition backoffDelay (attempt : Z) : Z := 2 ^ (attempt - 1) * 1000.

Definition failure (details : string) (attempt : Z) (category : ErrorCategory)
  : SendResult :=
  {| success := false; messageId := None; error := Some details;
     retryCount := attempt - 1; errorCategory := Some category |}.

(** One activation of [sendWithRetry]; [again] is the recursive call, when
    the stack allows one. *)
Definition sendWithRetryBody (svc : Service) (mailOptions : MailOptions.t)
  (maxRetries attempt : Z) (again : option (M SendResult)) : M SendResult :=
  match isDevelopmentMode svc, transporter svc with
  | true, _ | _, None =>
      (* Development mode: log email instead of sending *)
      print DevModeEmailWouldBeSent ;;
      t <- dateNow ;;
      ret {| success := true; messageId := Some ("dev-mode-" ++ numberToString t);
             error := None; retryCount := 0; errorCategory := None |}
  | false, Some transport =>
      (* Production mode: actually send email *)
      tryCatch
        (print (AttemptingToSend attempt maxRetries) ;;
         info <- sendMail transport mailOptions ;;
         print (EmailSentMessageId info) ;;
         ret {| success := true; messageId := Some info; error := None;
                retryCount := attempt - 1; errorCategory := None |})
        (fun error =>
           errorCategory <- liftR (categorizeError error) ;;
           let errorDetails := getErrorDetails (env svc) error errorCategory in
           print (EmailSendFailed attempt maxRetries errorCategory errorDetails) ;;
           isRetryable <- liftR (isRetryableError error) ;;
           if isRetryable && (attempt <? maxRetries)
           then
             let delayMs := backoffDelay attempt in
             print (RetryingIn delayMs) ;;
             sleep delayMs ;;
             match again with
             | Some recursive => recursive
             | None => ret (failure errorDetails attempt errorCategory)
             end
           else
             print GivingUp ;;
             ret (failure errorDetails attempt errorCategory))
  end.

(** The recursion of [sendWithRetry] goes from [attempt] up to
    [maxRetries]: [depth] bounds the number of recursive calls. *)
Fixpoint sendWithRetryRec (depth : nat) (svc : Service)
  (mailOptions : MailOptions.t) (maxRetries attempt : Z) : M SendResult :=
  sendWithRetryBody svc mailOptions maxRetries attempt
    match depth with
    | O => None
    | S d => Some (sendWithRetryRec d svc mailOptions maxRetries (attempt + 1))
    end.

Definition sendWithRetry (svc : Service) (mailOptions : MailOptions.t)
  (maxRetries attempt : Z) : M SendResult :=
  sendWithRetryRec (Z.to_nat (maxRetries - attempt)) svc mailOptions
    maxRetries attempt.

Definition isSuperAdmin (u : User.t) : bool := (User.role u =? "super_admin")%string.

(** The message [notifySuperAdmin] builds for the superadmin at [email]. *)
Definition notificationMail (svc : Service) (a : Notify.t) (email : string)
  : MailOptions.t :=
  let html :=
    generateAdminNotificationEmail svc (Notify.emailType a)
      (Notify.recipientEmail a) (Notify.recipientName a)
      (Notify.eventName a) (Notify.additionalDetails a) in
  {| MailOptions.from := orElse (SMTP_FROM (env svc)) defaultFrom;
     MailOptions.to := email;
     MailOptions.subject :=
       "📧 Email Activity: " ++ Notify.emailType a ++ " sent to "
       ++ Notify.recipientName a;
     MailOptions.html := html |}.

Definition notifySuperAdmin (svc : Service) (a : Notify.t) : M unit :=
  tryCatch
    ((* Get superadmin email *)
     emit GetUsers ;;
     superadmins <- await (getUsers svc) ;;
     match find isSuperAdmin superadmins with
     | None => print NoSuperadminFound ;; ret tt
     | Some superadmin =>
         match orNull (User.email superadmin) with
         | None => print NoSuperadminFound ;; ret tt
         | Some email =>
             let mailOptions := notificationMail svc a email in
             (* Send notification (no retry, to avoid recursive notifications) *)
             match isDevelopmentMode svc, transporter svc with
             | true, _ | _, None => print DevModeAdminNotification ;; ret tt
             | false, Some transport =>
                 _ <- sendMail transport mailOptions ;;
                 print AdminNotificationSent ;; ret tt
             end
         end
     end)
    (fun _ => print FailedToSendAdminNotification ;; ret tt).

(** A detached call with its handler:
    [notifySuperAdmin(...).catch(err => console.error(...))]. *)
Definition runDetached (svc : Service) (task : Notify.t) : M unit :=
  tryCatch (notifySuperAdmin svc task)
    (fun _ => print FailedToNotifySuperadmin ;; ret tt).

Definition spread (m : option Metadata) : Metadata :=
  match m with Some m => m | None => [] end.

Definition auditRecord (options : EmailOptions.t) (templateType : string)
  (recipientName : option string) (result : SendResult) : EmailLog.t :=
  {| EmailLog.recipientEmail := EmailOptions.to options;
     EmailLog.recipientName := orNull recipientName;
     EmailLog.subject := EmailOptions.subject options;
     EmailLog.templateType := templateType;
     EmailLog.status := if success result then "sent" else "failed";
     EmailLog.metadata :=
       setProp (spread (EmailOptions.metadata options)) "retryCount"
         (JNumber (retryCount result));
     EmailLog.errorMessage := orNull (error result) |}.

(** The [mailOptions] of [sendEmail]. *)
Definition mailOptionsOf (svc : Service) (options : EmailOptions.t)
  : MailOptions.t :=
  {| MailOptions.from := orElse (SMTP_FROM (env svc)) defaultFrom;
     MailOptions.to := EmailOptions.to options;
     MailOptions.subject := EmailOptions.subject options;
     MailOptions.html := EmailOptions.html options |}.

(** The arguments [sendEmail] passes to [notifySuperAdmin]. *)
Definition notificationOf (options : EmailOptions.t) (templateType : string)
  (recipientName : option string) : Notify.t :=
  let eventName :=
    let v := lookupProp (spread (EmailOptions.metadata options)) "eventName" in
    if truthyPrim v then v else JString "N/A" in
  {| Notify.emailType := templateType;
     Notify.recipientEmail := EmailOptions.to options;
     Notify.recipientName := orElse recipientName "Unknown";
     Notify.eventName := eventName;
     Notify.additionalDetails := spread (EmailOptions.metadata options) |}.

Definition sendEmail (svc : Service) (options : EmailOptions.t)
  (templateType : string) (recipientName : option string) : M SendResult :=
  let mailOptions := mailOptionsOf svc options in
  result <- sendWithRetry svc mailOptions 3 1 ;;
  (* Log email to database (don't fail email sending if logging fails) *)
  tryCatch
    (emit (CreateEmailLog (auditRecord options templateType recipientName result)) ;;
     await (createEmailLog svc
              (auditRecord options templateType recipientName result)))
    (fun logError => print FailedToLogEmail) ;;
  (if success result
   then
     print (if isDevelopmentMode svc then DevModeEmailLogged else EmailSentTo) ;;
     (* Notify superadmin about email activity (not awaited) *)
     detach (notificationOf options templateType recipientName)
   else print EmailSendFailedTo) ;;
  ret result.

Definition sendRegistrationApproved (svc : Service)
  (to name eventName username password : string) : M SendResult :=
  let html := generateRegistrationApprovedEmail svc name eventName username password in
  sendEmail svc
    {| EmailOptions.to := to;
       EmailOptions.subject := "Registration Approved - " ++ eventName;
       EmailOptions.html := html;
       EmailOptions.metadata :=
         Some [("eventName", JString eventName); ("username", JString username)] |}
    "registration_approved" (Some name).

(** ** The first version of the service, [server/services/emailService.ts]
    lines 1-220: no development mode, no classification of the error, no
    notification, and the audit record is written outside any [try]. *)
Module V1.

Definition sendWithRetryBody (transport : Transporter)
  (mailOptions : MailOptions.t) (maxRetries attempt : Z)
  (again : option (M SendResult)) : M SendResult :=
  tryCatch
    (info <- sendMail transport mailOptions ;;
     ret {| success := true; messageId := Some info; error := None;
            retryCount := attempt - 1; errorCategory := None |})
    (fun error =>
       let errorMessage :=
         if instanceofError error then message error else "Unknown error" in
       isRetryable <- liftR (isRetryableError error) ;;
       let failed :=
         {| success := false; messageId := None; error := Some errorMessage;
            retryCount := attempt - 1; errorCategory := None |} in
       if isRetryable && (attempt <? maxRetries)
       then
         let delayMs := backoffDelay attempt in
         print (RetryingIn delayMs) ;;
         sleep delayMs ;;
         match again with
         | Some recursive => recursive
         | None => ret failed
         end
       else ret failed).

Fixpoint sendWithRetryRec (depth : nat) (transport : Transporter)
  (mailOptions : MailOptions.t) (maxRetries attempt : Z) : M SendResult :=
  sendWithRetryBody transport mailOptions maxRetries attempt
    match depth with
    | O => None
    | S d => Some (sendWithRetryRec d transport mailOptions maxRetries (attempt + 1))
    end.

Definition sendWithRetry (transport : Transporter)
  (mailOptions : MailOptions.t) (maxRetries attempt : Z) : M SendResult :=
  sendWithRetryRec (Z.to_nat (maxRetries - attempt)) transport mailOptions
    maxRetries attempt.

Definition sendEmail (svc : Service) (transport : Transporter)
  (options : EmailOptions.t) (templateType : string)
  (recipientName : option string) : M SendResult :=
  let mailOptions := mailOptionsOf svc options in
  result <- sendWithRetry transport mailOptions 3 1 ;;
  emit (CreateEmailLog (auditRecord options templateType recipientName result)) ;;
  await (createEmailLog svc
           (auditRecord options templateType recipientName result)) ;;
  print (if success result then EmailSentTo else EmailSendFailedTo) ;;
  ret result.

End V1.

(** ** The second version of the service, [server/services/emailService.ts]
    lines 221-540: development mode, the audit record written inside a
    [try], the notification; the error of the transport is not classified.
    Its [notifySuperAdmin] is the one above. *)
Module V2.

Definition sendWithRetryBody (svc : Service) (mailOptions : MailOptions.t)
  (maxRetries attempt : Z) (again : option (M SendResult)) : M SendResult :=
  match isDevelopmentMode svc, transporter svc with
  | true, _ | _, None =>
      print DevModeEmailWouldBeSent ;;
      t <- dateNow ;;
      ret {| success := true; messageId := Some ("dev-mode-" ++ numberToString t);
             error := None; retryCount := 0; errorCategory := None |}
  | false, Some transport =>
      tryCatch
        (info <- sendMail transport mailOptions ;;
         ret {| success := true; messageId := Some info; error := None;
                retryCount := attempt - 1; errorCategory := None |})
        (fun error =>
           let errorMessage :=
             if instanceofError error then message error else "Unknown error" in
           isRetryable <- liftR (isRetryableError error) ;;
           let failed :=
             {| success := false; messageId := None; error := Some errorMessage;
                retryCount := attempt - 1; errorCategory := None |} in
           if isRetryable && (attempt <? maxRetries)
           then
             let delayMs := backoffDelay attempt in
             print (RetryingIn delayMs) ;;
             sleep delayMs ;;
             match again with
             | Some recursive => recursive
             | None => ret failed
             end
           else ret failed)
  end.

Fixpoint sendWithRetryRec (depth : nat) (svc : Service)
  (mailOptions : MailOptions.t) (maxRetries attempt : Z) : M SendResult :=
  sendWithRetryBody svc mailOptions maxRetries attempt
    match depth with
    | O => None
    | S d => Some (sendWithRetryRec d svc mailOptions maxRetries (attempt + 1))
    end.

Definition sendWithRetry (svc : Service) (mailOptions : MailOptions.t)
  (maxRetries attempt : Z) : M SendResult :=
  sendWithRetryRec (Z.to_nat (maxRetries - attempt)) svc mailOptions
    maxRetries attempt.

Definition sendEmail (svc : Service) (options : EmailOptions.t)
  (templateType : string) (recipientName : option string) : M SendResult :=
  let mailOptions := mailOptionsOf svc options in
  result <- sendWithRetry svc mailOptions 3 1 ;;
  tryCatch
    (emit (CreateEmailLog (auditRecord options templateType recipientName result)) ;;
     await (createEmailLog svc
              (auditRecord options templateType recipientName result)))
    (fun logError => print FailedToLogEmail) ;;
  (if success result
   then
     print (if isDevelopmentMode svc then DevModeEmailLogged else EmailSentTo) ;;
     detach (notificationOf options templateType recipientName)
   else print EmailSendFailedTo) ;;
  ret result.

End V2.

(** ** Reading the effects of a run *)

Definition world0 : World :=
  {| now := 0; sendMailCalls := 0; events := []; console := [] |}.

Definition isSendMail (ev : Event) : bool :=
  match ev with SendMail _ => true | _ => false end.

Definition isDetached (ev : Event) : bool :=
  match ev with Detached _ => true | _ => false end.

(** The audit records handed to the store. *)
Definition auditRecords (evs : list Event) : list EmailLog.t :=
  flat_map (fun ev => match ev with CreateEmailLog r => [r] | _ => [] end) evs.

(** The delays of the timers set. *)
Definition timers (evs : list Event) : list Z :=
  flat_map (fun ev => match ev with SetTimeout d => [d] | _ => [] end) evs.

(** The notifications started. *)
Definition detachedTasks (evs : list Event) : list Notify.t :=
  flat_map (fun ev => match ev with Detached t => [t] | _ => [] end) evs.

Definition transportCalls (evs : list Event) : nat :=
  List.length (filter isSendMail evs).

(** ** The vocabulary of the specification *)

(** [pat] occurs in [s]. *)
Definition Substring (pat s : string) : Prop :=
  exists pre post, s = pre ++ pat ++ post.

(** Whether the text before a position ends in a word character; before
    the text itself that is [prevWord]. *)
Fixpoint wordBefore (prevWord : bool) (pre : string) : bool :=
  match pre with
  | EmptyString => prevWord
  | String c pre' => wordBefore (isWordChar c) pre'
  end.

(** [s] holds a three-digit number that starts with the digit [lead] and
    stands alone: no word character touches it on either side. *)
Definition StandaloneCodeFrom (lead : ascii) (prevWord : bool) (s : string)
  : Prop :=
  exists pre d1 d2 post,
    s = pre ++ String lead (String d1 (String d2 post))
    /\ wordBefore prevWord pre = false
    /\ isDigit d1 = true /\ isDigit d2 = true
    /\ boundaryAfterWord post = true.

Definition StandaloneCode (lead : ascii) (s : string) : Prop :=
  StandaloneCodeFrom lead false s.

(** The number a field holds: a number, or a string [parseInt] reads. *)
Definition numericValue (p : JsPrim) : option Z :=
  match p with
  | JNumber n => Some n
  | JString s => parseInt s
  | _ => None
  end.

(** The raw error carries a code between [lo] and [hi], whose first digit
    is [lead]: alone in its lowercased text, in its [responseCode], or as
    a number in its [code]. *)
Definition CarriesCode (lead : ascii) (lo hi : Z) (e : JsVal) : Prop :=
  StandaloneCode lead (errorStringOf e)
  \/ (exists rc, getProp e F_responseCode = Ok rc
                 /\ inRange lo hi (numericValue rc) = true)
  \/ (exists n, getProp e F_code = Ok (JNumber n) /\ lo <= n <= hi).

Definition Carries4xx : JsVal -> Prop := CarriesCode "4" 400 499.
Definition Carries5xx : JsVal -> Prop := CarriesCode "5" 500 599.

(** The lowercased text of the raw error holds one of the patterns. *)
Definition TextMatches (patterns : list string) (e : JsVal) : Prop :=
  exists p, In p patterns /\ Substring p (errorStringOf e).

(** The patterns of the rules of [categorizeError] that come before the
    rule on protocol errors. *)
Definition earlierPatterns : list string :=
  [ "authentication"; "auth failed"; "invalid login"; "535";
    "econnrefused"; "connection refused"; "econnreset"; "connection reset";
    "socket hang up"; "timeout"; "etimedout"; "tls"; "ssl"; "certificate";
    "enotfound"; "getaddrinfo"; "network" ].

(** The service sends: it is not in development mode and has the
    transporter [t]. *)
Definition Live (svc : Service) (t : Transporter) : Prop :=
  isDevelopmentMode svc = false /\ transporter svc = Some t.

(** The world after one more [sendMail] call on [m] that took [d] ms. *)
Definition afterSendMail (w : World) (m : MailOptions.t) (d : Z) : World :=
  {| now := now w + d; sendMailCalls := S (sendMailCalls w);
     events := events w ++ [SendMail m]; console := console w |}.

(** The world after a timer of [delayMs]. *)
Definition afterSleep (w : World) (delayMs : Z) : World :=
  {| now := now w + timerDelay delayMs; sendMailCalls := sendMailCalls w;
     events := events w ++ [SetTimeout delayMs]; console := console w |}.

Definition printed (w : World) (lines : list Console) : World :=
  {| now := now w; sendMailCalls := sendMailCalls w;
     events := events w; console := console w ++ lines |}.

(** Modelled from the spec: the contract of the transport, which is
    nodemailer's and not part of the sources,
    [sendMail(from, to, subject, html) -> {messageId} |
     throws(error-with-optional-responseCode)].
    A rejection carries an error value, never [null] nor [undefined]. *)
Definition RejectsWithValues (svc : Service) : Prop :=
  forall t k m d e,
    transporter svc = Some t -> t k m = (d, Throw e) -> isNullish e = false.

(** [sendWithRetry] touches the transport and the timers only. *)
Definition isAttemptEvent (ev : Event) : bool :=
  match ev with
  | SendMail _ | SetTimeout _ => true
  | _ => false
  end.

(** The world in which [sendEmail] returns [result], when its retry
    sequence ended in the world [w]: the audit record has been handed to the
    store and awaited, a failure of the store has been printed, and after a
    success the notification has been started. *)
Definition afterAudit (svc : Service) (options : EmailOptions.t)
  (templateType : string) (recipientName : option string)
  (result : SendResult) (w : World) : World :=
  let record := auditRecord options templateType recipientName result in
  {| now := now w + fst (createEmailLog svc record);
     sendMailCalls := sendMailCalls w;
     events :=
       events w
       ++ CreateEmailLog record
          :: (if success result
              then [Detached (notificationOf options templateType recipientName)]
              else []);
     console :=
       console w
       ++ match snd (createEmailLog svc record) with
          | Ok _ => []
          | Throw _ => [FailedToLogEmail]
          end
       ++ [if success result
           then if isDevelopmentMode svc then DevModeEmailLogged else EmailSentTo
           else EmailSendFailedTo] |}.

(** The value of a decimal numeral read from the left, as [parseDigits]
    reads it. *)
Fixpoint uintValue (acc : Z) (d : Decimal.uint) : Z :=
  match d with
  | Decimal.Nil => acc
  | Decimal.D0 l => uintValue (acc * 10 + 0) l
  | Decimal.D1 l => uintValue (acc * 10 + 1) l
  | Decimal.D2 l => uintValue (acc * 10 + 2) l
  | Decimal.D3 l => uintValue (acc * 10 + 3) l
  | Decimal.D4 l => uintValue (acc * 10 + 4) l
  | Decimal.D5 l => uintValue (acc * 10 + 5) l
  | Decimal.D6 l => uintValue (acc * 10 + 6) l
  | Decimal.D7 l => uintValue (acc * 10 + 7) l
  | Decimal.D8 l => uintValue (acc * 10 + 8) l
  | Decimal.D9 l => uintValue (acc * 10 + 9) l
  end.

Definition digitChars : list ascii :=
  ["0"; "1"; "2"; "3"; "4"; "5"; "6"; "7"; "8"; "9"]%char.


(** ** Sample errors, as nodemailer reports them *)

Module Samples.

(** A temporary rejection by the server. *)
Definition busy421 : JsVal :=
  ErrorObj "Error" "Message failed: 421 4.7.0 Try again later"
    (JNumber 421) (JString "EMESSAGE").

(** A permanent rejection. *)
Definition unknownUser550 : JsVal :=
  ErrorObj "Error" "Message failed: 550 5.1.1 User unknown"
    (JNumber 550) (JString "EENVELOPE").

(** A permanent rejection whose text speaks of a timeout. *)
Definition relayTimeout550 : JsVal :=
  ErrorObj "Error" "Message failed: 550 5.4.1 relay timeout"
    (JNumber 550) (JString "EMESSAGE").

(** A failed login answered with a temporary code. *)
Definition login454 : JsVal :=
  ErrorObj "Error" "Invalid login: 454 4.7.0 Temporary authentication failure"
    (JNumber 454) (JString "EAUTH").

(** A text with the digits 450 inside a word. *)
Definition deferred450ms : JsVal :=
  Prim (JString "Deferred: next delivery in 450ms").

(** A failed login with bad credentials. *)
Definition login535 : JsVal :=
  ErrorObj "Error" "Invalid login: 535 5.7.8 Username and Password not accepted"
    (JNumber 535) (JString "EAUTH").

Definition processEnv : ProcessEnv :=
  {| SMTP_HOST := Some "smtp.example.org"; SMTP_PORT := Some "587";
     SMTP_FROM := None |}.

Definition superadmin : User.t :=
  {| User.role := "super_admin"; User.email := Some "root@example.org" |}.

(** A service in production mode over the transporter [t], whose store
    answers [stored] and whose directory answers [users]. *)
Definition liveService (t : Transporter) (stored : Awaited unit)
  (users : Awaited (list User.t)) : Service :=
  {| env := processEnv;
     isDevelopmentMode := false;
     transporter := Some t;
     createEmailLog := fun _ => stored;
     getUsers := users;
     generateRegistrationApprovedEmail :=
       fun name eventName username password =>
         "<p>" ++ name ++ ", you are registered for " ++ eventName ++ "</p>";
     generateAdminNotificationEmail :=
       fun emailType recipientEmail recipientName eventName details =>
         "<p>" ++ emailType ++ " to " ++ recipientEmail ++ "</p>" |}.

(** The same service without SMTP configuration. *)
Definition devService (stored : Awaited unit)
  (users : Awaited (list User.t)) : Service :=
  {| env := {| SMTP_HOST := None; SMTP_PORT := None; SMTP_FROM := None |};
     isDevelopmentMode := true;
     transporter := None;
     createEmailLog := fun _ => stored;
     getUsers := users;
     generateRegistrationApprovedEmail :=
       generateRegistrationApprovedEmail
         (liveService (fun _ _ => (0, Ok "")) stored users);
     generateAdminNotificationEmail :=
       generateAdminNotificationEmail
         (liveService (fun _ _ => (0, Ok "")) stored users) |}.

(** A transporter that fails with [e] on its first [n] calls, each taking
    20 ms, and then accepts. *)
Definition failing (n : nat) (e : JsVal) : Transporter :=
  fun k _ => if (k <? n)%nat then (20, Throw e) else (20, Ok "<1@example.org>").

Definition mail : MailOptions.t :=
  {| MailOptions.from := defaultFrom; MailOptions.to := "a@x.com";
     MailOptions.subject := "Registration Approved - 5K Run";
     MailOptions.html := "<p>Ann</p>" |}.

Definition options : EmailOptions.t :=
  {| EmailOptions.to := "a@x.com";
     EmailOptions.subject := "Registration Approved - 5K Run";
     EmailOptions.html := "<p>Ann</p>";
     EmailOptions.metadata := Some [("eventName", JString "5K Run")] |}.

Definition stored : Awaited unit := (5, Ok tt).
Definition storeDown : Awaited unit :=
  (5, Throw (ErrorObj "Error" "connection to database lost" JUndefined
               JUndefined)).
Definition users : Awaited (list User.t) := (3, Ok [superadmin]).

End Samples.

(** ** Further parts of the service *)

(** The options the constructor passes to [createTransport], in the
    latest version: [port = parseInt(SMTP_PORT || '587')], [None] being
    [NaN], and [secure = (port === 465)]. *)
Definition smtpPort (penv : ProcessEnv) : option Z :=
  parseInt (orElse (SMTP_PORT penv) "587").

Definition isSecure (penv : ProcessEnv) : bool :=
  match smtpPort penv with
  | Some port => port =? 465
  | None => false
  end.

(** The second version compares the text: [SMTP_PORT === '465']. *)
Definition isSecureV2 (penv : ProcessEnv) : bool :=
  match SMTP_PORT penv with
  | Some s => (s =? "465")%string
  | None => false
  end.

(** A [Date]: its time value in milliseconds, or [None] for an invalid
    date, whose time value is [NaN]. *)
Definition JsDate : Type := option Z.

Definition RangeError (message : string) : JsVal :=
  ErrorObj "RangeError" message JUndefined JUndefined.

(** [d.toISOString()]: throws on an invalid date; [iso] is the text of a
    valid one. *)
Definition toISOString (iso : Z -> string) (d : JsDate) : Result string :=
  match d with
  | Some t => Ok (iso t)
  | None => Throw (RangeError "Invalid time value")
  end.


Definition sendTestStartReminder
  (generateTestStartReminderEmail : string -> string -> string -> JsDate -> string)
  (iso : Z -> string)
  (svc : Service) (to name eventName roundName : string) (startTime : JsDate)
  : M SendResult :=
  let html := generateTestStartReminderEmail name eventName roundName startTime in
  startTimeISO <- liftR (toISOString iso startTime) ;;
  sendEmail svc
    {| EmailOptions.to := to;
       EmailOptions.subject := "Test Starting Soon - " ++ roundName;
       EmailOptions.html := html;
       EmailOptions.metadata :=
         Some [("eventName", JString eventName); ("roundName", JString roundName);
               ("startTime", JString startTimeISO)] |}
    "test_start_reminder" (Some name).

Definition sendResultPublished
  (generateResultPublishedEmail : string -> string -> Z -> Z -> string)
  (svc : Service) (to name eventName : string) (score rank : Z)
  : M SendResult :=
  let html := generateResultPublishedEmail name eventName score rank in
  sendEmail svc
    {| EmailOptions.to := to;
       EmailOptions.subject := "Results Published - " ++ eventName;
       EmailOptions.html := html;
       EmailOptions.metadata :=
         Some [("eventName", JString eventName); ("score", JNumber score);
               ("rank", JNumber rank)] |}
    "result_published" (Some name).

(** The events of a retry sequence that starts at [attempt] and makes [n]
    retries: each failed call is followed by its timer. *)
Fixpoint schedule (m : MailOptions.t) (attempt : Z) (n : nat) : list Event :=
  match n with
  | O => [SendMail m]
  | S n' =>
      SendMail m :: SetTimeout (backoffDelay attempt)
      :: schedule m (attempt + 1) n'
  end.

(** The shape of a result of the latest version: a success carries a
    message id and nothing else, a failure carries an error text and a
    category and no message id. *)
Definition WellShaped (r : SendResult) : Prop :=
  if success r
  then messageId r <> None /\ error r = None /\ errorCategory r = None
  else messageId r = None /\ error r <> None /\ errorCategory r <> None.

(** The events of the notification: the directory and the transport. *)
Definition isNotifyEvent (ev : Event) : bool :=
  match ev with
  | GetUsers | SendMail _ => true
  | _ => false
  end.

(** The categories of the transient failures. *)
Definition isTransientCategory (c : ErrorCategory) : bool :=
  match c with
  | SOCKET_HANG_UP | TIMEOUT | NETWORK_ERROR => true
  | _ => false
  end.

(** The fields of the two results that a caller of [sendEmail] is typed to
    see, apart from the error text. *)
Definition outcome (r : SendResult) : bool * option string * Z :=
  (success r, messageId r, retryCount r).

(** A variable of the environment that is unset or empty: what [||] and
    [&&] take for false. *)
Definition unset (v : option string) : Prop := v = None \/ v = Some "".

(** The message id a call resolved with, if it resolved with one. *)
Definition messageId_of (run : Result SendResult) : option string :=
  match run with
  | Ok r => messageId r
  | Throw _ => None
  end.
(** ** Facts on strings *)

Section StringFacts.

Lemma startsWith_spec (s pat : string) :
  startsWith s pat = true <-> exists post, s = pat ++ post.
Proof.
  revert s; induction pat as [|p pat IH]; intros s; simpl.
  - split; [intros _; now exists s | reflexivity].
  - destruct s as [|c s]; simpl.
    + split; [discriminate | intros [post H]; discriminate].
    + rewrite andb_true_iff, IH. split.
      * intros [Hc [post ->]]. apply Ascii.eqb_eq in Hc. subst.
        now exists post.
      * intros [post H]. injection H as -> ->. split.
        -- apply Ascii.eqb_refl.
        -- now exists post.
Qed.

Lemma includes_spec (s pat : string) :
  includes s pat = true <-> Substring pat s.
Proof.
  unfold Substring. induction s as [|c s IH].
  - simpl. rewrite orb_false_r, startsWith_spec. split.
    + intros [post H]. now exists EmptyString, post.
    + intros [pre [post H]]. destruct pre; [|discriminate].
      now exists post.
  - change (includes (String c s) pat)
      with (startsWith (String c s) pat || includes s pat).
    rewrite orb_true_iff, startsWith_spec, IH. split.
    + intros [[post H] | [pre [post H]]].
      * now exists EmptyString, post.
      * exists (String c pre), post. simpl. now f_equal.
    + intros [pre [post H]]. destruct pre as [|c' pre]; simpl in H.
      * left. now exists post.
      * right. injection H as _ H. now exists pre, post.
Qed.

Lemma existsb_includes (s : string) (patterns : list string) :
  existsb (fun pattern => includes s pattern) patterns = true
  <-> exists p, In p patterns /\ Substring p s.
Proof.
  rewrite existsb_exists. split; intros [p [Hin H]]; exists p;
    (split; [exact Hin | now apply includes_spec]).
Qed.

Lemma matchCodeFrom_Some (lead : ascii) (s : string) :
  forall prevWord m,
    matchCodeFrom lead prevWord s = Some m ->
    (exists d1 d2, m = String lead (String d1 (String d2 EmptyString))
                   /\ isDigit d1 = true /\ isDigit d2 = true)
    /\ StandaloneCodeFrom lead prevWord s.
Proof.
  induction s as [|c s IH]; intros prevWord m; simpl; [discriminate|].
  destruct s as [|d1 [|d2 rest]].
  - simpl. discriminate.
  - simpl. discriminate.
  - destruct (negb prevWord && Ascii.eqb c lead && isDigit d1 && isDigit d2
              && boundaryAfterWord rest) eqn:Hhere.
    + intros H. injection H as <-.
      repeat (apply andb_true_iff in Hhere as [Hhere ?]).
      apply Ascii.eqb_eq in H2. subst c.
      apply negb_true_iff in Hhere. split.
      * now exists d1, d2.
      * exists EmptyString, d1, d2, rest. simpl. repeat split; assumption.
    + intros H. apply IH in H as [Hm [pre [e1 [e2 [post [Hs Hrest]]]]]].
      split; [exact Hm|].
      exists (String c pre), e1, e2, post. simpl. rewrite Hs.
      split; [reflexivity | exact Hrest].
Qed.

Lemma matchCodeFrom_complete (lead : ascii) (s : string) :
  forall prevWord,
    StandaloneCodeFrom lead prevWord s ->
    exists m, matchCodeFrom lead prevWord s = Some m.
Proof.
  induction s as [|c s IH]; intros prevWord [pre [d1 [d2 [post [Hs H]]]]].
  - destruct pre; discriminate.
  - destruct H as [Hpre [Hd1 [Hd2 Hpost]]].
    destruct pre as [|c' pre]; simpl in Hs, Hpre.
    + injection Hs as -> ->. simpl.
      rewrite Hpre, Ascii.eqb_refl, Hd1, Hd2, Hpost. simpl. eauto.
    + injection Hs as -> Hs.
      assert (Hrec : StandaloneCodeFrom lead (isWordChar c') s)
        by (exists pre, d1, d2, post; repeat split; assumption).
      apply IH in Hrec as [m Hm].
      cbn [matchCodeFrom]. rewrite Hm.
      destruct s as [|e1 [|e2 rest]]; try discriminate.
      destruct (negb prevWord && Ascii.eqb c' lead && isDigit e1
                && isDigit e2 && boundaryAfterWord rest); eauto.
Qed.

Lemma matchCode_spec (lead : ascii) (s : string) :
  isSome (matchCode lead s) = true <-> StandaloneCode lead s.
Proof.
  unfold matchCode, StandaloneCode. split.
  - destruct (matchCodeFrom lead false s) eqn:H; [|discriminate].
    intros _. now apply matchCodeFrom_Some in H.
  - intros H. apply matchCodeFrom_complete in H as [m ->]. reflexivity.
Qed.

End StringFacts.

(** ** Facts on numbers and their text *)

Section NumberFacts.

Lemma isDigit_cases (c : ascii) : isDigit c = true -> In c digitChars.
Proof.
  destruct c as [[] [] [] [] [] [] [] []]; intros H; cbv in H;
    try discriminate H; simpl; tauto.
Qed.

(** The capture of [/\b(4\d\d)\b/] always reads as a number from 400 to
    499, so the range test after it never fails. *)
Lemma parseInt_capture_4xx (d1 d2 : ascii) :
  isDigit d1 = true -> isDigit d2 = true ->
  inRange 400 499
    (parseInt (String "4" (String d1 (String d2 EmptyString)))) = true.
Proof.
  intros H1 H2. apply isDigit_cases in H1. apply isDigit_cases in H2.
  simpl in H1, H2.
  repeat (destruct H1 as [<- | H1]; [|]); try contradiction;
    repeat (destruct H2 as [<- | H2]; [|]); try contradiction;
    reflexivity.
Qed.

Lemma parseDigits_uint (d : Decimal.uint) :
  forall acc,
    parseDigits 10 (Some acc) (NilEmpty.string_of_uint d)
    = Some (uintValue acc d).
Proof.
  induction d; intros acc; simpl; [reflexivity | ..];
    cbn [parseDigits]; rewrite IHd; reflexivity.
Qed.

Lemma parseDigits_uint_fresh (d : Decimal.uint) :
  d <> Decimal.Nil ->
  parseDigits 10 None (NilEmpty.string_of_uint d) = Some (uintValue 0 d).
Proof.
  destruct d; intros H; [contradiction | ..]; simpl;
    cbn [parseDigits]; rewrite parseDigits_uint; reflexivity.
Qed.

Lemma uintValue_of_uint_acc (d : Decimal.uint) :
  forall acc, Z.pos (Pos.of_uint_acc d acc) = uintValue (Z.pos acc) d.
Proof.
  induction d; intros acc; cbn [Pos.of_uint_acc uintValue];
    [reflexivity | ..]; rewrite IHd; f_equal; lia.
Qed.

Lemma uintValue_of_uint (d : Decimal.uint) :
  Z.of_N (Pos.of_uint d) = uintValue 0 d.
Proof.
  induction d; cbn [Pos.of_uint uintValue Z.of_N];
    try reflexivity; try assumption; apply uintValue_of_uint_acc.
Qed.

Lemma uintValue_to_uint (p : positive) :
  uintValue 0 (Pos.to_uint p) = Z.pos p.
Proof.
  rewrite <- uintValue_of_uint, DecimalPos.Unsigned.of_to. reflexivity.
Qed.

(** The text of a positive number: digits only, the first one not [0]
    followed by [x]; [parseInt] reads the number back. *)
Lemma string_of_uint_head (d : Decimal.uint) :
  d <> Decimal.Nil ->
  exists c rest,
    NilEmpty.string_of_uint d = String c rest /\ isDigit c = true
    /\ match rest with
       | String c1 _ => isDigit c1 = true
       | EmptyString => True
       end.
Proof.
  destruct d as [|d|d|d|d|d|d|d|d|d|d]; intros H; [contradiction | ..];
    simpl; eexists; eexists; (split; [reflexivity|]);
    (split; [reflexivity|]); destruct d; simpl; trivial.
Qed.

Lemma isDigit_not_prefix (c : ascii) :
  isDigit c = true ->
  isWhiteSpace c = false /\ Ascii.eqb c "-" = false
  /\ Ascii.eqb c "+" = false /\ Ascii.eqb c "x" = false
  /\ Ascii.eqb c "X" = false.
Proof.
  intros H. apply isDigit_cases in H. simpl in H.
  repeat (destruct H as [<- | H]; [repeat split; reflexivity|]).
  contradiction.
Qed.

Lemma parseInt_digits (s : string) (c : ascii) (rest : string) :
  s = String c rest -> isDigit c = true ->
  match rest with
  | String c1 _ => isDigit c1 = true
  | EmptyString => True
  end ->
  parseInt s = parseDigits 10 None s.
Proof.
  intros -> Hc Hrest.
  destruct (isDigit_not_prefix c Hc) as [Hws [Hminus [Hplus _]]].
  unfold parseInt. cbn [skipWhiteSpace]. rewrite Hws, Hminus, Hplus.
  destruct rest as [|c1 rest].
  - destruct (parseDigits 10 None (String c EmptyString)) as [[]|];
      reflexivity.
  - destruct (isDigit_not_prefix c1 Hrest) as [_ [_ [_ [Hx HX]]]].
    rewrite Hx, HX, andb_false_r.
    destruct (parseDigits 10 None (String c (String c1 rest))) as [[]|];
      reflexivity.
Qed.

Lemma parseInt_positive (p : positive) :
  parseInt (NilEmpty.string_of_uint (Pos.to_uint p)) = Some (Z.pos p).
Proof.
  pose proof (DecimalPos.Unsigned.to_uint_nonnil p) as Hnil.
  destruct (string_of_uint_head _ Hnil) as [c [rest [Hs [Hc Hrest]]]].
  rewrite (parseInt_digits _ c rest Hs Hc Hrest).
  rewrite parseDigits_uint_fresh by exact Hnil.
  now rewrite uintValue_to_uint.
Qed.

End NumberFacts.

Section NumberText.

Lemma numberToString_pos (p : positive) :
  numberToString (Z.pos p) = NilEmpty.string_of_uint (Pos.to_uint p).
Proof.
  unfold numberToString. cbn [Z.to_int NilZero.string_of_int].
  pose proof (DecimalPos.Unsigned.to_uint_nonnil p) as Hnil.
  unfold NilZero.string_of_uint.
  destruct (Pos.to_uint p); [contradiction | reflexivity ..].
Qed.

Lemma numberToString_neg (p : positive) :
  numberToString (Z.neg p)
  = String "-" (NilEmpty.string_of_uint (Pos.to_uint p)).
Proof.
  unfold numberToString. cbn [Z.to_int NilZero.string_of_int].
  pose proof (DecimalPos.Unsigned.to_uint_nonnil p) as Hnil.
  unfold NilZero.string_of_uint.
  destruct (Pos.to_uint p); [contradiction | reflexivity ..].
Qed.

Lemma parseInt_minus (c : ascii) (rest : string) :
  isDigit c = true ->
  match rest with
  | String c1 _ => isDigit c1 = true
  | EmptyString => True
  end ->
  parseInt (String "-" (String c rest))
  = option_map Z.opp (parseDigits 10 None (String c rest)).
Proof.
  intros Hc Hrest.
  unfold parseInt. cbn [skipWhiteSpace].
  change (isWhiteSpace "-") with false. cbv iota.
  change (Ascii.eqb "-" "-") with true. cbv iota.
  destruct rest as [|c1 rest].
  - destruct (parseDigits 10 None (String c EmptyString)) as [[]|];
      reflexivity.
  - destruct (isDigit_not_prefix c1 Hrest) as [_ [_ [_ [Hx HX]]]].
    rewrite Hx, HX, andb_false_r.
    destruct (parseDigits 10 None (String c (String c1 rest))) as [[]|];
      reflexivity.
Qed.

(** [parseInt(String(n))] is [n] again. *)
Lemma parseInt_numberToString (n : Z) :
  parseInt (numberToString n) = Some n.
Proof.
  destruct n as [|p|p].
  - reflexivity.
  - rewrite numberToString_pos. apply parseInt_positive.
  - rewrite numberToString_neg.
    pose proof (DecimalPos.Unsigned.to_uint_nonnil p) as Hnil.
    destruct (string_of_uint_head _ Hnil) as [c [rest [Hs [Hc Hrest]]]].
    rewrite Hs, (parseInt_minus c rest Hc Hrest), <- Hs.
    rewrite parseDigits_uint_fresh by exact Hnil.
    now rewrite uintValue_to_uint.
Qed.

Lemma parseInt_primToString (p : JsPrim) :
  parseInt (primToString p) = numericValue p.
Proof.
  destruct p as [| |[]|n| |s]; try reflexivity.
  apply parseInt_numberToString.
Qed.

Lemma inRange_iff (lo hi : Z) (n : option Z) :
  inRange lo hi n = true <-> exists z, n = Some z /\ lo <= z <= hi.
Proof.
  destruct n as [z|]; simpl.
  - rewrite andb_true_iff, !Z.leb_le. split.
    + intros H. now exists z.
    + intros [z' [H ?]]. now injection H as ->.
  - split; [discriminate | intros [z [H _]]; discriminate].
Qed.

(** A field whose number lies in a range of positive codes is truthy. *)
Lemma inRange_truthy (lo hi : Z) (p : JsPrim) :
  0 < lo -> inRange lo hi (numericValue p) = true -> truthyPrim p = true.
Proof.
  intros Hlo H. apply inRange_iff in H as [z [Hz Hr]].
  destruct p as [| |b|n| |s]; try discriminate Hz; simpl in *.
  - injection Hz as ->. apply negb_true_iff, Z.eqb_neq. lia.
  - destruct s; [discriminate Hz | reflexivity].
Qed.

End NumberText.

(** ** The classifier *)

Section Classifier.

Lemma truthy_false_cases (e : JsVal) :
  truthy e = false ->
  In e [Prim JUndefined; Prim JNull; Prim (JBool false);
        Prim (JNumber 0); Prim JNaN; Prim (JString "")].
Proof.
  destruct e as [[| |[]|n| |s]| |]; simpl; try discriminate; intros H;
    try tauto.
  - apply negb_false_iff, Z.eqb_eq in H. subst. tauto.
  - apply negb_false_iff, String.eqb_eq in H. subst. tauto.
Qed.

(** A truthy value has its two fields, perhaps [undefined]. *)
Lemma getProp_truthy (e : JsVal) (f : Field) :
  truthy e = true -> exists p, getProp e f = Ok p.
Proof.
  destruct e as [[]| |]; simpl; try discriminate; eauto.
Qed.

Lemma getProp_not_nullish (e : JsVal) (f : Field) :
  isNullish e = false -> exists p, getProp e f = Ok p.
Proof.
  destruct e as [[]| |]; simpl; try discriminate; eauto.
Qed.

Lemma Carries4xx_truthy (e : JsVal) : Carries4xx e -> truthy e = true.
Proof.
  intros H. destruct (truthy e) eqn:T; [reflexivity | exfalso].
  apply truthy_false_cases in T. simpl in T.
  destruct H as [H | [[rc [Hrc H]] | [n [Hn _]]]].
  - apply matchCode_spec in H.
    repeat (destruct T as [<- | T]; [discriminate H|]). contradiction.
  - repeat (destruct T as [<- | T];
            [cbn in Hrc; try discriminate Hrc; injection Hrc as <-;
             discriminate H|]).
    contradiction.
  - repeat (destruct T as [<- | T]; [discriminate Hn|]). contradiction.
Qed.

Lemma TextMatches_retryable_truthy (e : JsVal) :
  TextMatches retryablePatterns e -> truthy e = true.
Proof.
  intros H. destruct (truthy e) eqn:T; [reflexivity | exfalso].
  apply truthy_false_cases in T. simpl in T.
  apply existsb_includes in H.
  repeat (destruct T as [<- | T]; [discriminate H|]). contradiction.
Qed.

(** [isRetryableError] never throws. *)
Lemma isRetryableError_total (e : JsVal) :
  exists b, isRetryableError e = Ok b.
Proof.
  unfold isRetryableError. destruct (truthy e) eqn:T; simpl; [|eauto].
  destruct (getProp_truthy e F_responseCode T) as [rc ->].
  destruct (getProp_truthy e F_code T) as [c ->]. simpl.
  repeat match goal with
         | |- context [if ?b then _ else _] => destruct b
         end; eauto.
Qed.

(** The specification's rule, word for word: retryable exactly when the
    error carries a code from 400 to 499 or its text holds a transient
    pattern. *)
Lemma isRetryableError_true_iff (e : JsVal) :
  isRetryableError e = Ok true
  <-> Carries4xx e \/ TextMatches retryablePatterns e.
Proof.
  destruct (truthy e) eqn:T.
  - unfold isRetryableError. rewrite T. cbn [negb].
    destruct (getProp_truthy e F_responseCode T) as [rc Hrc].
    destruct (getProp_truthy e F_code T) as [c Hc].
    rewrite Hrc, Hc. cbn [bindR].
    destruct (matchCode "4" (errorStringOf e)) as [m|] eqn:Hm.
    { apply matchCodeFrom_Some in Hm as [[d1 [d2 [-> [H1 H2]]]] Hst].
      rewrite parseInt_capture_4xx by assumption.
      split; [intros _; left; left; exact Hst | reflexivity]. }
    rewrite parseInt_primToString.
    destruct (truthyPrim rc && inRange 400 499 (numericValue rc)) eqn:Brc.
    { apply andb_true_iff in Brc as [_ Brc].
      split; [intros _; left; right; left; eauto | reflexivity]. }
    destruct (truthyPrim c
              && match c with
                 | JNumber n => (400 <=? n) && (n <=? 499)
                 | _ => false
                 end) eqn:Bc.
    { apply andb_true_iff in Bc as [_ Bc].
      destruct c as [| | |n| |]; try discriminate Bc.
      apply andb_true_iff in Bc as [Blo Bhi].
      apply Z.leb_le in Blo, Bhi.
      split; [intros _; left; right; right; exists n; auto | reflexivity]. }
    split.
    + intros H. injection H as H. right. now apply existsb_includes.
    + intros [[H | [[rc' [Hrc' H]] | [n [Hn H]]]] | H].
      * apply matchCode_spec in H. unfold matchCode in *.
        rewrite Hm in H. discriminate H.
      * rewrite Hrc in Hrc'. injection Hrc' as <-.
        rewrite (inRange_truthy 400 499 rc), H in Brc by (lia || exact H).
        discriminate Brc.
      * rewrite Hc in Hn. injection Hn as ->.
        assert (truthyPrim (JNumber n) = true) as Ht
            by (simpl; apply negb_true_iff, Z.eqb_neq; lia).
        rewrite Ht in Bc. cbn [andb] in Bc.
        destruct H as [Hlo Hhi]. apply Z.leb_le in Hlo, Hhi.
        rewrite Hlo, Hhi in Bc. discriminate Bc.
      * f_equal. now apply existsb_includes.
  - unfold isRetryableError. rewrite T. cbn [negb]. split.
    + discriminate.
    + intros [H | H].
      * apply Carries4xx_truthy in H. congruence.
      * apply TextMatches_retryable_truthy in H. congruence.
Qed.

Lemma isRetryableError_false_iff (e : JsVal) :
  isRetryableError e = Ok false
  <-> ~ Carries4xx e /\ ~ TextMatches retryablePatterns e.
Proof.
  destruct (isRetryableError_total e) as [[] Hb].
  - split.
    + rewrite Hb. discriminate.
    + intros [H4 Ht]. apply isRetryableError_true_iff in Hb. tauto.
  - split; [intros _ | intros _; exact Hb].
    split; intros H;
      assert (isRetryableError e = Ok true) as Ht
        by (apply isRetryableError_true_iff; tauto);
      congruence.
Qed.

End Classifier.

(** ** Retryability of codes *)

Section Retryability.

Lemma Carries5xx_or_auth_truthy (e : JsVal) :
  Carries5xx e \/ TextMatches authenticationPatterns e -> truthy e = true.
Proof.
  intros H. destruct (truthy e) eqn:T; [reflexivity | exfalso].
  apply truthy_false_cases in T. simpl in T.
  destruct H as [[H | [[rc [Hrc H]] | [n [Hn _]]]] | H].
  - apply matchCode_spec in H.
    repeat (destruct T as [<- | T]; [discriminate H|]). contradiction.
  - repeat (destruct T as [<- | T];
            [cbn in Hrc; try discriminate Hrc; injection Hrc as <-;
             discriminate H|]).
    contradiction.
  - repeat (destruct T as [<- | T]; [discriminate Hn|]). contradiction.
  - apply existsb_includes in H.
    repeat (destruct T as [<- | T]; [discriminate H|]). contradiction.
Qed.

End Retryability.

(** C1, as the code has it.  A raw error that carries a code from 400 to 499
    (alone as a word in its lowercased text, in its [responseCode], or as a
    number in its [code]) is retryable.  A raw error that carries a code from
    500 to 599, or whose text matches an authentication pattern, is not
    retryable when it carries no code from 400 to 499 and its text holds no
    transient pattern; when its text holds a transient pattern it is
    retryable. *)
Theorem isRetryableError_codes (e : JsVal) :
  (Carries4xx e -> isRetryableError e = Ok true)
  /\ (Carries5xx e \/ TextMatches authenticationPatterns e ->
      ~ Carries4xx e -> ~ TextMatches retryablePatterns e ->
      isRetryableError e = Ok false)
  /\ (Carries5xx e \/ TextMatches authenticationPatterns e ->
      TextMatches retryablePatterns e ->
      isRetryableError e = Ok true).
Proof.
  split; [|split].
  - intros H. apply isRetryableError_true_iff. now left.
  - intros _ H4 Ht. now apply isRetryableError_false_iff.
  - intros _ Ht. apply isRetryableError_true_iff. now right.
Qed.

Lemma isRetryableError_codes_witness :
  (Carries4xx Samples.busy421
   /\ isRetryableError Samples.busy421 = Ok true)
  /\ ((Carries5xx Samples.unknownUser550
       \/ TextMatches authenticationPatterns Samples.unknownUser550)
      /\ ~ Carries4xx Samples.unknownUser550
      /\ ~ TextMatches retryablePatterns Samples.unknownUser550
      /\ isRetryableError Samples.unknownUser550 = Ok false)
  /\ ((Carries5xx Samples.relayTimeout550
       \/ TextMatches authenticationPatterns Samples.relayTimeout550)
      /\ TextMatches retryablePatterns Samples.relayTimeout550
      /\ isRetryableError Samples.relayTimeout550 = Ok true).
Proof.
  assert (H4 : Carries4xx Samples.busy421)
    by (right; left; exists (JNumber 421); split; reflexivity).
  assert (H5 : Carries5xx Samples.unknownUser550)
    by (right; left; exists (JNumber 550); split; reflexivity).
  assert (H5' : Carries5xx Samples.relayTimeout550)
    by (right; left; exists (JNumber 550); split; reflexivity).
  assert (Hn : ~ Carries4xx Samples.unknownUser550
               /\ ~ TextMatches retryablePatterns Samples.unknownUser550)
    by (apply isRetryableError_false_iff; reflexivity).
  assert (Ht : TextMatches retryablePatterns Samples.relayTimeout550)
    by (apply existsb_includes; reflexivity).
  destruct Hn as [Hn4 Hnt].
  split; [|split].
  - split; [exact H4|].
    exact (proj1 (isRetryableError_codes Samples.busy421) H4).
  - split; [left; exact H5|]. split; [exact Hn4|]. split; [exact Hnt|].
    exact (proj1 (proj2 (isRetryableError_codes Samples.unknownUser550))
             (or_introl H5) Hn4 Hnt).
  - split; [left; exact H5'|]. split; [exact Ht|].
    exact (proj2 (proj2 (isRetryableError_codes Samples.relayTimeout550))
             (or_introl H5') Ht).
Defined.

(** C1 as stated fails: an error with the code 550 whose text speaks of a
    timeout, and a failed login answered with 454, are both retried; and a
    text that holds the digits 450 inside a word is not retried. *)
Lemma isRetryableError_permanent_retried :
  (Carries5xx Samples.relayTimeout550
   /\ isRetryableError Samples.relayTimeout550 = Ok true)
  /\ (TextMatches authenticationPatterns Samples.login454
      /\ isRetryableError Samples.login454 = Ok true)
  /\ (Substring "450" (errorStringOf Samples.deferred450ms)
      /\ isRetryableError Samples.deferred450ms = Ok false).
Proof.
  split; [|split]; split; try reflexivity.
  - right; left. exists (JNumber 550). split; reflexivity.
  - apply existsb_includes. reflexivity.
  - apply includes_spec. reflexivity.
Qed.

(** C10.  On a falsy raw error ([null], [undefined], the empty string, 0,
    [NaN], [false]) [isRetryableError] returns false; it returns on every
    input, also on [null] and [undefined], where reading a property throws
    and where [categorizeError] throws for that reason. *)
Theorem isRetryableError_falsy (e : JsVal) :
  (truthy e = false -> isRetryableError e = Ok false)
  /\ (exists b, isRetryableError e = Ok b)
  /\ (isNullish e = true ->
      truthy e = false
      /\ (forall f, exists err, getProp e f = Throw err)
      /\ exists err, categorizeError e = Throw err).
Proof.
  split; [|split].
  - intros T. unfold isRetryableError. now rewrite T.
  - apply isRetryableError_total.
  - intros N. destruct e as [[]| |]; try discriminate N;
      (split; [reflexivity|]); (split; [intros f|]); eexists; reflexivity.
Qed.

Lemma isRetryableError_falsy_witness :
  (truthy (Prim (JString "")) = false
   /\ isRetryableError (Prim (JString "")) = Ok false)
  /\ (isNullish (Prim JNull) = true
      /\ isRetryableError (Prim JNull) = Ok false
      /\ exists err, categorizeError (Prim JNull) = Throw err).
Proof.
  split.
  - split; [reflexivity|].
    exact (proj1 (isRetryableError_falsy (Prim (JString ""))) eq_refl).
  - split; [reflexivity|].
    destruct (isRetryableError_falsy (Prim JNull)) as [Hf [_ Hn]].
    destruct (Hn eq_refl) as [T [_ Hc]].
    split; [exact (Hf T) | exact Hc].
Defined.

(** ** [categorizeError] *)

Section Categories.

(** On every value but [null] and [undefined] a category comes back. *)
Lemma categorizeError_total (e : JsVal) :
  isNullish e = false -> exists c, categorizeError e = Ok c.
Proof.
  intros N. unfold categorizeError.
  destruct (getProp_not_nullish e F_responseCode N) as [rc ->].
  cbn [bindR].
  repeat match goal with
         | |- context [if ?b then _ else _] => destruct b
         end; eauto.
Qed.

Lemma categorizeError_late_rules (e : JsVal) :
  ~ TextMatches earlierPatterns e ->
  categorizeError e
  = bindR (getProp e F_responseCode)
      (fun rc => if truthyPrim rc || isSome (matchCode "5" (errorStringOf e))
                 then Ok SMTP_PROTOCOL_ERROR else Ok UNKNOWN_ERROR).
Proof.
  intros H. unfold categorizeError.
  assert (Hp : forall p, In p earlierPatterns ->
                         includes (errorStringOf e) p = false).
  { intros p Hin. destruct (includes (errorStringOf e) p) eqn:Hi; [|easy].
    exfalso. apply H. exists p. split; [exact Hin|].
    now apply includes_spec. }
  rewrite !Hp by (simpl; tauto). reflexivity.
Qed.

(** Rule 7: a response code from 400 to 599, or a code from 500 to 599
    alone in the text, is a protocol error, when no earlier rule applies. *)
Lemma categorizeError_protocol (e : JsVal) (rc : JsPrim) :
  ~ TextMatches earlierPatterns e ->
  getProp e F_responseCode = Ok rc ->
  inRange 400 599 (numericValue rc) = true
  \/ StandaloneCode "5" (errorStringOf e) ->
  categorizeError e = Ok SMTP_PROTOCOL_ERROR.
Proof.
  intros H Hrc Hcode. rewrite categorizeError_late_rules by exact H.
  rewrite Hrc. cbn [bindR]. destruct Hcode as [Hn | Ht].
  - now rewrite (inRange_truthy 400 599 rc) by (lia || exact Hn).
  - apply matchCode_spec in Ht. rewrite Ht, orb_true_r. reflexivity.
Qed.

(** Rule 8: otherwise the category is unknown. *)
Lemma categorizeError_unknown (e : JsVal) (rc : JsPrim) :
  ~ TextMatches earlierPatterns e ->
  getProp e F_responseCode = Ok rc -> truthyPrim rc = false ->
  ~ StandaloneCode "5" (errorStringOf e) ->
  categorizeError e = Ok UNKNOWN_ERROR.
Proof.
  intros H Hrc Hf Ht. rewrite categorizeError_late_rules by exact H.
  rewrite Hrc. cbn [bindR]. rewrite Hf.
  destruct (isSome (matchCode "5" (errorStringOf e))) eqn:Hm; [|reflexivity].
  apply matchCode_spec in Hm. contradiction.
Qed.

(** Rule 1 comes first: an authentication pattern decides, whatever else
    the error carries. *)
Lemma categorizeError_authentication (e : JsVal) :
  TextMatches authenticationPatterns e ->
  categorizeError e = Ok AUTHENTICATION_FAILED.
Proof.
  intros [p [Hin Hs]]. apply includes_spec in Hs. unfold categorizeError.
  simpl in Hin.
  repeat (destruct Hin as [<- | Hin];
          [rewrite Hs, ?orb_true_r; reflexivity|]).
  contradiction.
Qed.

End Categories.

(** C6: the code at the failing inputs.  On [null] and on [undefined]
    [categorizeError] reads [error.responseCode] and throws a [TypeError]; no
    category comes back. *)
Theorem categorizeError_throws_on_null_and_undefined :
  categorizeError (Prim JNull)
  = Throw (TypeError "Cannot read properties of null (reading 'responseCode')")
  /\ categorizeError (Prim JUndefined)
     = Throw (TypeError
                "Cannot read properties of undefined (reading 'responseCode')").
Proof. split; reflexivity. Qed.

(** ** One activation of [sendWithRetry] *)

Section Steps.

Variable svc : Service.
Variable t : Transporter.
Hypothesis live : Live svc t.
Variable m : MailOptions.t.
Variable maxRetries attempt : Z.

Lemma depth_step :
  attempt < maxRetries ->
  Z.to_nat (maxRetries - attempt) = S (Z.to_nat (maxRetries - (attempt + 1))).
Proof. intros H. rewrite <- Z2Nat.inj_succ by lia. f_equal. lia. Qed.

(** The transport accepts the message. *)
Lemma sendWithRetry_sent (w : World) (d : Z) (id : string) :
  t (sendMailCalls w) m = (d, Ok id) ->
  sendWithRetry svc m maxRetries attempt w
  = (Ok {| success := true; messageId := Some id; error := None;
           retryCount := attempt - 1; errorCategory := None |},
     printed (afterSendMail (printed w [AttemptingToSend attempt maxRetries])
                m d)
       [EmailSentMessageId id]).
Proof.
  intros Ht. destruct live as [Hdev Htr].
  unfold sendWithRetry.
  destruct (Z.to_nat (maxRetries - attempt)); cbn [sendWithRetryRec];
    unfold sendWithRetryBody; rewrite Hdev, Htr;
    unfold tryCatch, bind, print, sendMail, emit, await, elapse, liftR, ret;
    cbn; rewrite Ht; reflexivity.
Qed.

(** The transport fails and the error is not retried. *)
Lemma sendWithRetry_gives_up (w : World) (d : Z) (e : JsVal)
  (c : ErrorCategory) (b : bool) :
  t (sendMailCalls w) m = (d, Throw e) ->
  categorizeError e = Ok c -> isRetryableError e = Ok b ->
  b && (attempt <? maxRetries) = false ->
  sendWithRetry svc m maxRetries attempt w
  = (Ok (failure (getErrorDetails (env svc) e c) attempt c),
     afterSendMail
       (printed w [AttemptingToSend attempt maxRetries;
                   EmailSendFailed attempt maxRetries c
                     (getErrorDetails (env svc) e c);
                   GivingUp])
       m d).
Proof.
  intros Ht Hc Hr Hb. destruct live as [Hdev Htr].
  unfold sendWithRetry.
  destruct (Z.to_nat (maxRetries - attempt)); cbn [sendWithRetryRec];
    unfold sendWithRetryBody; rewrite Hdev, Htr;
    unfold tryCatch, bind, print, sendMail, emit, await, elapse, liftR, ret;
    cbn; rewrite Ht; cbn; rewrite Hc, Hr; cbn; rewrite Hb; cbn;
    unfold afterSendMail, printed; cbn; rewrite <- !app_assoc;
    reflexivity.
Qed.

(** The transport fails with a retryable error and an attempt is left:
    the service waits and calls itself with the next attempt. *)
Lemma sendWithRetry_retries (w : World) (d : Z) (e : JsVal)
  (c : ErrorCategory) :
  t (sendMailCalls w) m = (d, Throw e) ->
  categorizeError e = Ok c -> isRetryableError e = Ok true ->
  attempt < maxRetries ->
  sendWithRetry svc m maxRetries attempt w
  = sendWithRetry svc m maxRetries (attempt + 1)
      (afterSleep
         (afterSendMail
            (printed w [AttemptingToSend attempt maxRetries;
                        EmailSendFailed attempt maxRetries c
                          (getErrorDetails (env svc) e c);
                        RetryingIn (backoffDelay attempt)])
            m d)
         (backoffDelay attempt)).
Proof.
  intros Ht Hc Hr Hlt. destruct live as [Hdev Htr].
  unfold sendWithRetry at 1. rewrite (depth_step Hlt).
  cbn [sendWithRetryRec].
  change (sendWithRetryRec (Z.to_nat (maxRetries - (attempt + 1))) svc m
            maxRetries (attempt + 1))
    with (sendWithRetry svc m maxRetries (attempt + 1)).
  unfold sendWithRetryBody. rewrite Hdev, Htr.
  apply Z.ltb_lt in Hlt.
  unfold tryCatch, bind, print, sendMail, sleep, emit, await, elapse,
    liftR, ret.
  cbn. rewrite Ht. cbn. rewrite Hc, Hr. cbn. rewrite Hlt. cbn.
  unfold afterSleep, afterSendMail, printed. cbn.
  rewrite <- !app_assoc. reflexivity.
Qed.

End Steps.

Lemma retryable_categorized (e : JsVal) :
  isRetryableError e = Ok true -> exists c, categorizeError e = Ok c.
Proof.
  intros H. apply categorizeError_total.
  apply isRetryableError_true_iff in H.
  assert (T : truthy e = true)
    by (destruct H; [now apply Carries4xx_truthy
                    | now apply TextMatches_retryable_truthy]).
  destruct e as [[]| |]; simpl in *; congruence.
Qed.

(** The recursion never runs out of depth: [sendWithRetry] is its body with
    itself, at the next attempt, as the recursive call. *)
Lemma sendWithRetry_unfold (svc : Service) (m : MailOptions.t)
  (maxRetries attempt : Z) (w : World) :
  sendWithRetry svc m maxRetries attempt w
  = sendWithRetryBody svc m maxRetries attempt
      (Some (sendWithRetry svc m maxRetries (attempt + 1))) w.
Proof.
  destruct (Z.ltb_spec attempt maxRetries) as [Hlt | Hge].
  - unfold sendWithRetry at 1. rewrite (depth_step _ _ Hlt). reflexivity.
  - unfold sendWithRetry at 1.
    replace (Z.to_nat (maxRetries - attempt)) with O by lia.
    cbn [sendWithRetryRec]. apply Z.ltb_ge in Hge.
    unfold sendWithRetryBody.
    destruct (isDevelopmentMode svc); [reflexivity|].
    destruct (transporter svc) as [t|]; [|reflexivity].
    unfold tryCatch, bind, print, sendMail, emit, await, elapse, liftR, ret.
    cbn. destruct (t (sendMailCalls w) m) as [d [id|e]]; [reflexivity|].
    cbn. destruct (categorizeError e) as [c|]; [|reflexivity].
    cbn. destruct (isRetryableError e) as [b|]; [|reflexivity].
    cbn. rewrite Hge, andb_false_r. reflexivity.
Qed.

(** C3.  In production mode, with three attempts: when the transport fails
    with retryable errors on the attempts before the [k]-th and accepts the
    [k]-th, for [k] = 1, 2, 3, [sendWithRetry] returns success with
    [retryCount] = [k] - 1, having waited 1000 ms after the first failure
    and 2000 ms after the second; when all three attempts fail with
    retryable errors it returns failure with [retryCount] = 2 and the
    category of the last error. *)
Theorem sendWithRetry_three_attempts (svc : Service) (t : Transporter)
  (m : MailOptions.t) (w : World) :
  Live svc t ->
  let sent id n :=
    {| success := true; messageId := Some id; error := None;
       retryCount := n; errorCategory := None |} in
  (forall d1 id,
      t (sendMailCalls w) m = (d1, Ok id) ->
      exists w',
        sendWithRetry svc m 3 1 w = (Ok (sent id 0), w')
        /\ events w' = (events w ++ [SendMail m])%list
        /\ now w' = now w + d1)
  /\ (forall d1 e1 d2 id,
         t (sendMailCalls w) m = (d1, Throw e1) ->
         isRetryableError e1 = Ok true ->
         t (S (sendMailCalls w)) m = (d2, Ok id) ->
         exists w',
           sendWithRetry svc m 3 1 w = (Ok (sent id 1), w')
           /\ events w' = (events w ++ [SendMail m; SetTimeout 1000; SendMail m])%list
           /\ now w' = now w + d1 + 1000 + d2)
  /\ (forall d1 e1 d2 e2 d3 id,
         t (sendMailCalls w) m = (d1, Throw e1) ->
         isRetryableError e1 = Ok true ->
         t (S (sendMailCalls w)) m = (d2, Throw e2) ->
         isRetryableError e2 = Ok true ->
         t (S (S (sendMailCalls w))) m = (d3, Ok id) ->
         exists w',
           sendWithRetry svc m 3 1 w = (Ok (sent id 2), w')
           /\ events w' = (events w ++ [SendMail m; SetTimeout 1000; SendMail m;
                                       SetTimeout 2000; SendMail m])%list
           /\ now w' = now w + d1 + 1000 + d2 + 2000 + d3)
  /\ (forall d1 e1 d2 e2 d3 e3,
         t (sendMailCalls w) m = (d1, Throw e1) ->
         isRetryableError e1 = Ok true ->
         t (S (sendMailCalls w)) m = (d2, Throw e2) ->
         isRetryableError e2 = Ok true ->
         t (S (S (sendMailCalls w))) m = (d3, Throw e3) ->
         isRetryableError e3 = Ok true ->
         exists w' c3,
           categorizeError e3 = Ok c3
           /\ sendWithRetry svc m 3 1 w
              = (Ok {| success := false; messageId := None;
                       error := Some (getErrorDetails (env svc) e3 c3);
                       retryCount := 2; errorCategory := Some c3 |}, w')
           /\ events w' = (events w ++ [SendMail m; SetTimeout 1000; SendMail m;
                                       SetTimeout 2000; SendMail m])%list
           /\ now w' = now w + d1 + 1000 + d2 + 2000 + d3).
Proof.
  intros live sent. repeat split.
  - intros d1 id H1. eexists. split; [|split].
    + rewrite (sendWithRetry_sent svc t live m 3 1 w d1 id H1). reflexivity.
    + reflexivity.
    + reflexivity.
  - intros d1 e1 d2 id H1 R1 H2.
    destruct (retryable_categorized e1 R1) as [c1 C1].
    eexists. split; [|split].
    + rewrite (sendWithRetry_retries svc t live m 3 1 w d1 e1 c1 H1 C1 R1)
        by lia.
      rewrite (sendWithRetry_sent svc t live m 3 (1 + 1) _ d2 id) by exact H2.
      reflexivity.
    + cbn. rewrite <- !app_assoc. reflexivity.
    + cbn. lia.
  - intros d1 e1 d2 e2 d3 id H1 R1 H2 R2 H3.
    destruct (retryable_categorized e1 R1) as [c1 C1].
    destruct (retryable_categorized e2 R2) as [c2 C2].
    eexists. split; [|split].
    + rewrite (sendWithRetry_retries svc t live m 3 1 w d1 e1 c1 H1 C1 R1)
        by lia.
      rewrite (sendWithRetry_retries svc t live m 3 (1 + 1) _ d2 e2 c2)
        by (exact H2 || exact C2 || exact R2 || lia).
      rewrite (sendWithRetry_sent svc t live m 3 (1 + 1 + 1) _ d3 id)
        by exact H3.
      reflexivity.
    + cbn. rewrite <- !app_assoc. reflexivity.
    + cbn. lia.
  - intros d1 e1 d2 e2 d3 e3 H1 R1 H2 R2 H3 R3.
    destruct (retryable_categorized e1 R1) as [c1 C1].
    destruct (retryable_categorized e2 R2) as [c2 C2].
    destruct (retryable_categorized e3 R3) as [c3 C3].
    eexists. exists c3. split; [exact C3|]. split; [|split].
    + rewrite (sendWithRetry_retries svc t live m 3 1 w d1 e1 c1 H1 C1 R1)
        by lia.
      rewrite (sendWithRetry_retries svc t live m 3 (1 + 1) _ d2 e2 c2)
        by (exact H2 || exact C2 || exact R2 || lia).
      rewrite (sendWithRetry_gives_up svc t live m 3 (1 + 1 + 1) _ d3 e3 c3
                 true)
        by (exact H3 || exact C3 || exact R3 || reflexivity).
      reflexivity.
    + cbn. rewrite <- !app_assoc. reflexivity.
    + cbn. lia.
Qed.

Lemma sendWithRetry_three_attempts_witness :
  let t2 := Samples.failing 2 Samples.busy421 in
  let t3 := Samples.failing 3 Samples.busy421 in
  (Live (Samples.liveService t2 Samples.stored Samples.users) t2
   /\ exists w',
       sendWithRetry (Samples.liveService t2 Samples.stored Samples.users)
         Samples.mail 3 1 world0
       = (Ok {| success := true; messageId := Some "<1@example.org>";
                error := None; retryCount := 2; errorCategory := None |}, w')
       /\ timers (events w') = [1000; 2000]
       /\ now w' = 3060)
  /\ (Live (Samples.liveService t3 Samples.stored Samples.users) t3
      /\ exists w' details,
          sendWithRetry (Samples.liveService t3 Samples.stored Samples.users)
            Samples.mail 3 1 world0
          = (Ok {| success := false; messageId := None; error := Some details;
                   retryCount := 2;
                   errorCategory := Some SMTP_PROTOCOL_ERROR |}, w')
          /\ timers (events w') = [1000; 2000]).
Proof.
  intros t2 t3.
  assert (L2 : Live (Samples.liveService t2 Samples.stored Samples.users) t2)
    by (split; reflexivity).
  assert (L3 : Live (Samples.liveService t3 Samples.stored Samples.users) t3)
    by (split; reflexivity).
  split; (split; [assumption|]).
  - destruct (proj1 (proj2 (proj2
        (sendWithRetry_three_attempts _ t2 Samples.mail world0 L2)))
        20 Samples.busy421 20 Samples.busy421 20 "<1@example.org>"
        eq_refl eq_refl eq_refl eq_refl eq_refl) as [w' [Hrun [Hev Hnow]]].
    exists w'. split; [exact Hrun|]. split.
    + rewrite Hev. reflexivity.
    + rewrite Hnow. reflexivity.
  - destruct (proj2 (proj2 (proj2
        (sendWithRetry_three_attempts _ t3 Samples.mail world0 L3)))
        20 Samples.busy421 20 Samples.busy421 20 Samples.busy421
        eq_refl eq_refl eq_refl eq_refl eq_refl eq_refl)
      as [w' [c3 [Hc [Hrun [Hev _]]]]].
    injection Hc as <-.
    exists w'. eexists. split; [exact Hrun|].
    rewrite Hev. reflexivity.
Defined.

(** C5.  In production mode, when the first attempt fails with an error
    that is not retryable, [sendWithRetry] returns failure with
    [retryCount] = 0, the category and the diagnostic of the error; it makes
    this one call of the transport and sets no timer.  The transport keeps
    its contract: it rejects with an error value. *)
Theorem sendWithRetry_permanent_failure (svc : Service) (t : Transporter)
  (m : MailOptions.t) (w : World) (d : Z) (e : JsVal) :
  Live svc t ->
  RejectsWithValues svc ->
  t (sendMailCalls w) m = (d, Throw e) ->
  isRetryableError e = Ok false ->
  exists c w',
    categorizeError e = Ok c
    /\ sendWithRetry svc m 3 1 w
       = (Ok {| success := false; messageId := None;
                error := Some (getErrorDetails (env svc) e c);
                retryCount := 0; errorCategory := Some c |}, w')
    /\ events w' = (events w ++ [SendMail m])%list
    /\ timers (events w') = timers (events w)
    /\ now w' = now w + d.
Proof.
  intros live Hrej Ht R.
  assert (N : isNullish e = false)
    by (apply (Hrej t (sendMailCalls w) m d e); [apply live | exact Ht]).
  destruct (categorizeError_total e N) as [c C].
  exists c. eexists. split; [exact C|]. split; [|split; [|split]].
  - rewrite (sendWithRetry_gives_up svc t live m 3 1 w d e c false Ht C R)
      by reflexivity.
    reflexivity.
  - reflexivity.
  - cbn. unfold timers. rewrite flat_map_app. cbn. apply app_nil_r.
  - reflexivity.
Qed.

Lemma sendWithRetry_permanent_failure_witness :
  let t := Samples.failing 1 Samples.unknownUser550 in
  let svc := Samples.liveService t Samples.stored Samples.users in
  Live svc t
  /\ RejectsWithValues svc
  /\ t (sendMailCalls world0) Samples.mail = (20, Throw Samples.unknownUser550)
  /\ isRetryableError Samples.unknownUser550 = Ok false
  /\ exists w',
      sendWithRetry svc Samples.mail 3 1 world0
      = (Ok {| success := false; messageId := None;
               error := Some "SMTP protocol error. Server response: Message failed: 550 5.1.1 User unknown";
               retryCount := 0; errorCategory := Some SMTP_PROTOCOL_ERROR |},
         w')
      /\ timers (events w') = [].
Proof.
  intros t svc.
  assert (L : Live svc t) by (split; reflexivity).
  assert (H : RejectsWithValues svc).
  { intros t' k m d e Ht Hcall. injection Ht as <-.
    unfold t, Samples.failing in Hcall.
    destruct (k <? 1)%nat; [|discriminate Hcall].
    injection Hcall as _ <-. reflexivity. }
  split; [exact L|]. split; [exact H|]. repeat (split; [reflexivity|]).
  destruct (sendWithRetry_permanent_failure svc t Samples.mail world0 20
              Samples.unknownUser550 L H eq_refl eq_refl)
    as [c [w' [Hc [Hrun [_ [Htimers _]]]]]].
  injection Hc as <-.
  exists w'. split; [exact Hrun | exact Htimers].
Defined.

(** ** [sendEmail] around the retry sequence *)

Ltac run_effects :=
  unfold tryCatch, bind, print, sendMail, sleep, detach, emit, await, elapse,
    liftR, ret, dateNow;
  cbn.

Section Delivery.

Variable svc : Service.

(** Whatever it resolves to, [sendWithRetry] adds calls of the transport
    and timers to the events, and nothing else. *)
Lemma sendWithRetryRec_events (m : MailOptions.t) (maxRetries : Z)
  (depth : nat) :
  forall attempt w,
  exists evs,
    events (snd (sendWithRetryRec depth svc m maxRetries attempt w))
    = (events w ++ evs)%list
    /\ forallb isAttemptEvent evs = true.
Proof.
  induction depth as [|depth IH]; intros attempt w;
    cbn [sendWithRetryRec]; unfold sendWithRetryBody;
    (destruct (isDevelopmentMode svc);
     [exists []; run_effects; now rewrite app_nil_r|]);
    (destruct (transporter svc) as [t|];
     [|exists []; run_effects; now rewrite app_nil_r]);
    run_effects;
    (destruct (t (sendMailCalls w) m) as [d [id|e]]; cbn;
     [exists [SendMail m]; now split|]);
    (destruct (categorizeError e) as [c|]; cbn;
     [|exists [SendMail m]; now split]);
    (destruct (isRetryableError e) as [b|]; cbn;
     [|exists [SendMail m]; now split]);
    (destruct (b && (attempt <? maxRetries)); cbn;
     [|exists [SendMail m]; now split]).
  - exists [SendMail m; SetTimeout (backoffDelay attempt)].
    rewrite <- app_assoc. now split.
  - match goal with
    | |- context [sendWithRetryRec depth svc m maxRetries ?a ?w1] =>
        destruct (IH a w1) as [evs [Hev Hall]]
    end.
    exists (SendMail m :: SetTimeout (backoffDelay attempt) :: evs).
    split; [|exact Hall].
    rewrite Hev. cbn [events]. rewrite <- !app_assoc. reflexivity.
Qed.

(** When the transport rejects with values, [sendWithRetry] resolves. *)
Lemma sendWithRetryRec_returns (m : MailOptions.t) (maxRetries : Z)
  (depth : nat) :
  RejectsWithValues svc ->
  forall attempt w,
  exists r w', sendWithRetryRec depth svc m maxRetries attempt w = (Ok r, w').
Proof.
  intros Hrej.
  induction depth as [|depth IH]; intros attempt w;
    cbn [sendWithRetryRec]; unfold sendWithRetryBody;
    (destruct (isDevelopmentMode svc); [run_effects; eauto|]);
    (destruct (transporter svc) as [t|] eqn:Ht; [|run_effects; eauto]);
    run_effects;
    (destruct (t (sendMailCalls w) m) as [d [id|e]] eqn:Hcall; cbn;
     [eauto|]);
    (destruct (categorizeError_total e (Hrej t _ _ _ _ Ht Hcall))
       as [c ->]; cbn);
    (destruct (isRetryableError_total e) as [b ->]; cbn);
    (destruct (b && (attempt <? maxRetries)); cbn; eauto).
Qed.

Lemma sendWithRetry_returns (m : MailOptions.t) (maxRetries attempt : Z)
  (w : World) :
  RejectsWithValues svc ->
  exists r w', sendWithRetry svc m maxRetries attempt w = (Ok r, w').
Proof. intros H. now apply sendWithRetryRec_returns. Qed.

Variable options : EmailOptions.t.
Variable templateType : string.
Variable recipientName : option string.

(** Once the retry sequence has resolved to [r], [sendEmail] resolves to
    [r] whatever the store does. *)
Lemma sendEmail_after_retry (w w1 : World) (r : SendResult) :
  sendWithRetry svc (mailOptionsOf svc options) 3 1 w = (Ok r, w1) ->
  sendEmail svc options templateType recipientName w
  = (Ok r, afterAudit svc options templateType recipientName r w1).
Proof.
  intros H. unfold sendEmail, bind at 1. rewrite H.
  unfold afterAudit. run_effects.
  destruct (createEmailLog svc
              (auditRecord options templateType recipientName r))
    as [d [[]|e]]; cbn; destruct (success r); cbn;
    rewrite <- ?app_assoc; reflexivity.
Qed.

(** A rejection of the retry sequence is the only one [sendEmail] lets
    through. *)
Lemma sendEmail_after_throw (w w1 : World) (e : JsVal) :
  sendWithRetry svc (mailOptionsOf svc options) 3 1 w = (Throw e, w1) ->
  sendEmail svc options templateType recipientName w = (Throw e, w1).
Proof. intros H. unfold sendEmail, bind at 1. now rewrite H. Qed.

(** In this version [sendEmail] resolves for every message, whether the
    store accepts the audit record or not. *)
Lemma sendEmail_never_raises (w : World) :
  RejectsWithValues svc ->
  exists r w', sendEmail svc options templateType recipientName w = (Ok r, w').
Proof.
  intros H.
  destruct (sendWithRetry_returns (mailOptionsOf svc options) 3 1 w H)
    as [r [w1 Hr]].
  rewrite (sendEmail_after_retry w w1 r Hr). eauto.
Qed.

End Delivery.

Section Effects.

Lemma attempts_carry_no_record (evs : list Event) :
  forallb isAttemptEvent evs = true ->
  auditRecords evs = [] /\ detachedTasks evs = [].
Proof.
  induction evs as [|ev evs IH]; [now split|].
  cbn [forallb]. intros H. apply andb_true_iff in H as [Hev H].
  destruct (IH H) as [Ha Hd].
  destruct ev; try discriminate Hev; cbn; now rewrite ?Ha, ?Hd.
Qed.

(** The retry sequence hands nothing to the store and starts no
    notification, however many attempts it makes. *)
Lemma sendWithRetry_no_record (svc : Service) (m : MailOptions.t)
  (maxRetries attempt : Z) (w : World) :
  let w1 := snd (sendWithRetry svc m maxRetries attempt w) in
  auditRecords (events w1) = auditRecords (events w)
  /\ detachedTasks (events w1) = detachedTasks (events w).
Proof.
  unfold sendWithRetry.
  destruct (sendWithRetryRec_events svc m maxRetries
              (Z.to_nat (maxRetries - attempt)) attempt w)
    as [evs [Hev Hall]].
  destruct (attempts_carry_no_record evs Hall) as [Ha Hd].
  cbn zeta. rewrite Hev. unfold auditRecords, detachedTasks.
  rewrite !flat_map_app.
  fold (auditRecords evs). fold (detachedTasks evs).
  now rewrite Ha, Hd, !app_nil_r.
Qed.

End Effects.

(** C7, as the code has it.  Every [sendEmail] call (the transport keeping
    its contract) resolves to a result and hands exactly one audit record to
    the store, whose status is [sent] exactly when the result is a
    success, however many attempts were made; it starts the notification
    exactly once after a success and not at all after a failure. *)
Theorem sendEmail_one_audit_record (svc : Service) (options : EmailOptions.t)
  (templateType : string) (recipientName : option string) (w : World) :
  RejectsWithValues svc ->
  exists r w',
    sendEmail svc options templateType recipientName w = (Ok r, w')
    /\ auditRecords (events w')
       = (auditRecords (events w)
          ++ [auditRecord options templateType recipientName r])%list
    /\ (EmailLog.status (auditRecord options templateType recipientName r)
        = "sent" <-> success r = true)
    /\ detachedTasks (events w')
       = (detachedTasks (events w)
          ++ if success r
             then [notificationOf options templateType recipientName]
             else [])%list.
Proof.
  intros H.
  destruct (sendWithRetry_returns svc (mailOptionsOf svc options) 3 1 w H)
    as [r [w1 Hr]].
  pose proof (sendWithRetry_no_record svc (mailOptionsOf svc options) 3 1 w)
    as Hno.
  rewrite Hr in Hno. cbn in Hno. destruct Hno as [Ha Hd].
  exists r. eexists. split; [|split; [|split]].
  - apply sendEmail_after_retry. exact Hr.
  - cbn [afterAudit events]. unfold auditRecords in *.
    rewrite flat_map_app, Ha. cbn.
    destruct (success r); reflexivity.
  - cbn. destruct (success r); split; congruence.
  - cbn [afterAudit events]. unfold detachedTasks in *.
    rewrite flat_map_app, Hd. cbn.
    destruct (success r); reflexivity.
Qed.

Lemma sendEmail_one_audit_record_witness :
  let t := Samples.failing 2 Samples.busy421 in
  let svc := Samples.liveService t Samples.storeDown Samples.users in
  RejectsWithValues svc
  /\ exists r w',
      sendEmail svc Samples.options "registration_approved" (Some "Ann") world0
      = (Ok r, w')
      /\ retryCount r = 2
      /\ List.length (auditRecords (events w')) = 1%nat
      /\ List.length (detachedTasks (events w')) = 1%nat.
Proof.
  intros t svc.
  assert (H : RejectsWithValues svc).
  { intros t' k m d e Ht Hcall. injection Ht as <-.
    unfold t, Samples.failing in Hcall.
    destruct (k <? 2)%nat; [|discriminate Hcall].
    injection Hcall as _ <-. reflexivity. }
  split; [exact H|].
  destruct (sendEmail_one_audit_record svc Samples.options
              "registration_approved" (Some "Ann") world0 H)
    as [r [w' [Hrun [Ha [_ Hd]]]]].
  exists r, w'. split; [exact Hrun|].
  assert (Hr : r = {| success := true; messageId := Some "<1@example.org>";
                      error := None; retryCount := 2;
                      errorCategory := None |}).
  { assert (E : fst (sendEmail svc Samples.options "registration_approved"
                       (Some "Ann") world0)
                = Ok {| success := true; messageId := Some "<1@example.org>";
                        error := None; retryCount := 2;
                        errorCategory := None |}) by reflexivity.
    rewrite Hrun in E. cbn in E. now injection E. }
  subst r. rewrite Ha, Hd. repeat split; reflexivity.
Defined.

(** C7 as stated fails: after a failed delivery no notification is
    started. *)
Lemma sendEmail_failure_starts_no_notification :
  let t := Samples.failing 1 Samples.unknownUser550 in
  let svc := Samples.liveService t Samples.stored Samples.users in
  exists r w',
    sendEmail svc Samples.options "registration_approved" (Some "Ann") world0
    = (Ok r, w')
    /\ success r = false
    /\ detachedTasks (events w') = [].
Proof.
  intros t svc. eexists. eexists. split; [reflexivity|]. split; reflexivity.
Qed.

(** C8, as the code has it.  Once the retry sequence has resolved, the audit
    record is handed to the store, after every attempt, and the append is
    awaited: [sendEmail] returns the result of the retry sequence at the time
    the retry sequence ended plus the time the store takes.  The
    notification is started after the append and is not awaited. *)
Theorem sendEmail_returns_after_audit (svc : Service)
  (options : EmailOptions.t) (templateType : string)
  (recipientName : option string) (w w1 : World) (r : SendResult) :
  sendWithRetry svc (mailOptionsOf svc options) 3 1 w = (Ok r, w1) ->
  exists w',
    sendEmail svc options templateType recipientName w = (Ok r, w')
    /\ events w'
       = (events w1
          ++ CreateEmailLog (auditRecord options templateType recipientName r)
             :: if success r
                then [Detached (notificationOf options templateType
                                  recipientName)]
                else [])%list
    /\ now w'
       = now w1
         + fst (createEmailLog svc
                  (auditRecord options templateType recipientName r))
    /\ sendMailCalls w' = sendMailCalls w1.
Proof.
  intros H. eexists. split; [apply sendEmail_after_retry; exact H|].
  repeat split; reflexivity.
Qed.

Lemma sendEmail_returns_after_audit_witness :
  let t := Samples.failing 0 Samples.busy421 in
  let svc := Samples.liveService t Samples.stored Samples.users in
  exists r w1 w',
    sendWithRetry svc (mailOptionsOf svc Samples.options) 3 1 world0 = (Ok r, w1)
    /\ sendEmail svc Samples.options "registration_approved" (Some "Ann") world0
       = (Ok r, w')
    /\ now w' = now w1 + 5.
Proof.
  intros t svc. eexists. eexists.
  assert (H : sendWithRetry svc (mailOptionsOf svc Samples.options) 3 1 world0
              = (Ok {| success := true; messageId := Some "<1@example.org>";
                       error := None; retryCount := 0;
                       errorCategory := None |},
                 snd (sendWithRetry svc (mailOptionsOf svc Samples.options)
                        3 1 world0))) by reflexivity.
  destruct (sendEmail_returns_after_audit svc Samples.options
              "registration_approved" (Some "Ann") world0 _ _ H)
    as [w' [Hrun [_ [Hnow _]]]].
  exists w'. split; [exact H|]. split; [exact Hrun | exact Hnow].
Defined.

(** C8 as stated fails: the store takes 5 ms, the retry sequence ends at
    20 ms and the caller has the result at 25 ms. *)
Lemma sendEmail_waits_for_the_store :
  let t := Samples.failing 0 Samples.busy421 in
  let svc := Samples.liveService t Samples.stored Samples.users in
  exists r w1 w',
    sendWithRetry svc (mailOptionsOf svc Samples.options) 3 1 world0 = (Ok r, w1)
    /\ sendEmail svc Samples.options "registration_approved" (Some "Ann") world0
       = (Ok r, w')
    /\ now w1 = 20 /\ now w' = 25.
Proof.
  intros t svc. eexists. eexists. eexists.
  split; [reflexivity|]. split; [reflexivity|]. split; reflexivity.
Qed.

(** ** What reaches the caller of [sendEmail] *)

Section Raises.

Variable svc : Service.
Variable options : EmailOptions.t.
Variable templateType : string.
Variable recipientName : option string.

(** The result does not depend on the store nor on the directory: a
    service that differs in these two only resolves to the same result. *)
Lemma sendEmail_result_ignores_store_and_directory
  (store' : EmailLog.t -> Awaited unit) (users' : Awaited (list User.t))
  (w : World) :
  let svc' :=
    {| env := env svc; isDevelopmentMode := isDevelopmentMode svc;
       transporter := transporter svc; createEmailLog := store';
       getUsers := users';
       generateRegistrationApprovedEmail :=
         generateRegistrationApprovedEmail svc;
       generateAdminNotificationEmail :=
         generateAdminNotificationEmail svc |} in
  fst (sendEmail svc' options templateType recipientName w)
  = fst (sendEmail svc options templateType recipientName w).
Proof.
  intros svc'.
  assert (Hsame : forall depth m maxRetries attempt w0,
             sendWithRetryRec depth svc' m maxRetries attempt w0
             = sendWithRetryRec depth svc m maxRetries attempt w0).
  { induction depth as [|depth IH]; intros m maxRetries attempt w0;
      cbn [sendWithRetryRec]; unfold sendWithRetryBody; cbn;
      destruct (isDevelopmentMode svc); try reflexivity;
      destruct (transporter svc) as [t|]; try reflexivity.
    run_effects.
    destruct (t (sendMailCalls w0) m) as [d [id|e]]; cbn; [reflexivity|].
    destruct (categorizeError e); cbn; [|reflexivity].
    destruct (isRetryableError e) as [b|]; cbn; [|reflexivity].
    destruct (b && (attempt <? maxRetries)); cbn; [|reflexivity].
    apply IH. }
  assert (Hretry : sendWithRetry svc' (mailOptionsOf svc' options) 3 1 w
                   = sendWithRetry svc (mailOptionsOf svc options) 3 1 w)
    by apply Hsame.
  destruct (sendWithRetry svc (mailOptionsOf svc options) 3 1 w)
    as [[r|e] w1] eqn:Hr.
  - rewrite (sendEmail_after_retry svc' options templateType recipientName
               w w1 r Hretry).
    rewrite (sendEmail_after_retry svc options templateType recipientName
               w w1 r Hr).
    reflexivity.
  - rewrite (sendEmail_after_throw svc' options templateType recipientName
               w w1 e Hretry).
    rewrite (sendEmail_after_throw svc options templateType recipientName
               w w1 e Hr).
    reflexivity.
Qed.

(** A failure of the store is printed as a warning and goes no further. *)
Lemma sendEmail_store_failure_logged (w w1 : World) (r : SendResult)
  (d : Z) (e : JsVal) :
  sendWithRetry svc (mailOptionsOf svc options) 3 1 w = (Ok r, w1) ->
  createEmailLog svc (auditRecord options templateType recipientName r)
  = (d, Throw e) ->
  exists w',
    sendEmail svc options templateType recipientName w = (Ok r, w')
    /\ In FailedToLogEmail (console w')
    /\ level FailedToLogEmail = ConsoleWarn.
Proof.
  intros Hr Hs. eexists. split; [apply sendEmail_after_retry; exact Hr|].
  split; [|reflexivity].
  cbn [afterAudit console]. rewrite Hs. cbn.
  apply in_or_app. right. now left.
Qed.

(** Where this version does raise: a transport that rejects with [null]
    or [undefined] makes [categorizeError] throw, and the [TypeError]
    leaves [sendWithRetry] and [sendEmail]; no audit record is written. *)
Lemma sendEmail_raises_on_nullish_rejection (t : Transporter) (w : World)
  (d : Z) (e : JsVal) :
  Live svc t ->
  t (sendMailCalls w) (mailOptionsOf svc options) = (d, Throw e) ->
  isNullish e = true ->
  exists err w',
    sendEmail svc options templateType recipientName w = (Throw err, w')
    /\ auditRecords (events w') = auditRecords (events w).
Proof.
  intros [Hdev Htr] Hcall N.
  assert (Hc : exists err, categorizeError e = Throw err)
    by (destruct e as [[]| |]; try discriminate N; eexists; reflexivity).
  destruct Hc as [err Hc]. exists err. eexists. split.
  - apply sendEmail_after_throw. rewrite sendWithRetry_unfold.
    unfold sendWithRetryBody. rewrite Hdev, Htr. run_effects.
    rewrite Hcall. cbn. rewrite Hc. reflexivity.
  - cbn. unfold auditRecords. rewrite flat_map_app. cbn. apply app_nil_r.
Qed.

End Raises.

(** The first version: a rejection of the store leaves [sendEmail]. *)
Lemma sendEmail_v1_store_failure_raises (svc : Service) (t : Transporter)
  (options : EmailOptions.t) (templateType : string)
  (recipientName : option string) (w w1 : World) (r : SendResult)
  (d : Z) (e : JsVal) :
  V1.sendWithRetry t (mailOptionsOf svc options) 3 1 w = (Ok r, w1) ->
  createEmailLog svc (auditRecord options templateType recipientName r)
  = (d, Throw e) ->
  exists w', V1.sendEmail svc t options templateType recipientName w
             = (Throw e, w').
Proof.
  intros Hr Hs. unfold V1.sendEmail, bind at 1. rewrite Hr.
  run_effects. rewrite Hs. cbn. eauto.
Qed.

(** C2: the code at the failing input.  In the first version of the service
    the transport accepts the message and the store rejects the audit
    record: [sendEmail] rejects with the store's error, after the message
    has been sent. *)
Theorem sendEmail_v1_raises_when_store_fails :
  let t := Samples.failing 0 Samples.busy421 in
  let svc := Samples.liveService t Samples.storeDown Samples.users in
  exists w',
    V1.sendEmail svc t Samples.options "registration_approved" (Some "Ann")
      world0
    = (Throw (ErrorObj "Error" "connection to database lost" JUndefined
                JUndefined), w')
    /\ transportCalls (events w') = 1%nat.
Proof. intros t svc. eexists. split; reflexivity. Qed.

(** ** Development mode *)

Section DevelopmentMode.

Variable svc : Service.
Hypothesis dev : isDevelopmentMode svc = true.

Lemma sendWithRetry_development (m : MailOptions.t) (maxRetries attempt : Z)
  (w : World) :
  sendWithRetry svc m maxRetries attempt w
  = (Ok {| success := true;
           messageId := Some ("dev-mode-" ++ numberToString (now w));
           error := None; retryCount := 0; errorCategory := None |},
     printed w [DevModeEmailWouldBeSent]).
Proof.
  rewrite sendWithRetry_unfold. unfold sendWithRetryBody. rewrite dev.
  reflexivity.
Qed.

(** In development mode the notification only prints. *)
Lemma runDetached_development (task : Notify.t) (w : World) :
  exists w',
    runDetached svc task w = (Ok tt, w')
    /\ sendMailCalls w' = sendMailCalls w
    /\ transportCalls (events w') = transportCalls (events w).
Proof.
  unfold runDetached, notifySuperAdmin. run_effects.
  assert (Hcalls : forall evs,
             transportCalls (evs ++ [GetUsers]) = transportCalls evs).
  { intros evs. unfold transportCalls. rewrite filter_app. cbn.
    now rewrite app_nil_r. }
  destruct (getUsers svc) as [d [users|e]]; cbn; [|eauto].
  destruct (find isSuperAdmin users) as [admin|]; cbn; [|eauto].
  destruct (orNull (User.email admin)) as [email|]; cbn; [|eauto].
  rewrite dev. cbn. eauto.
Qed.

Lemma sendEmail_development (options : EmailOptions.t)
  (templateType : string) (recipientName : option string) (w : World) :
  let r :=
    {| success := true;
       messageId := Some ("dev-mode-" ++ numberToString (now w));
       error := None; retryCount := 0; errorCategory := None |} in
  sendEmail svc options templateType recipientName w
  = (Ok r,
     afterAudit svc options templateType recipientName r
       (printed w [DevModeEmailWouldBeSent])).
Proof.
  intros r. apply sendEmail_after_retry. apply sendWithRetry_development.
Qed.

End DevelopmentMode.

(** C4.  In development mode every [sendEmail] call resolves to a success
    whose [messageId] is [dev-mode-] followed by the time, with
    [retryCount] 0; it calls the transport not once, nor does the
    notification it starts; it hands the store one audit record with the
    template type of the call and the status [sent].  So does
    [sendRegistrationApproved], with the template type
    [registration_approved]. *)
Theorem sendEmail_development_mode (svc : Service) (w : World) :
  isDevelopmentMode svc = true ->
  let delivered (run : Result SendResult * World) (templateType : string) :=
    exists id w' record,
      run = (Ok {| success := true; messageId := Some id; error := None;
                   retryCount := 0; errorCategory := None |}, w')
      /\ id = "dev-mode-" ++ numberToString (now w)
      /\ startsWith id "dev-mode-" = true /\ id <> ""
      /\ sendMailCalls w' = sendMailCalls w
      /\ transportCalls (events w') = transportCalls (events w)
      /\ auditRecords (events w') = (auditRecords (events w) ++ [record])%list
      /\ EmailLog.templateType record = templateType
      /\ EmailLog.status record = "sent"
      /\ forall task wn,
           sendMailCalls (snd (runDetached svc task wn)) = sendMailCalls wn in
  (forall options templateType recipientName,
      delivered (sendEmail svc options templateType recipientName w)
        templateType)
  /\ (forall to name eventName username password,
         delivered
           (sendRegistrationApproved svc to name eventName username password w)
           "registration_approved").
Proof.
  intros dev delivered.
  assert (Hgen : forall options templateType recipientName,
             delivered (sendEmail svc options templateType recipientName w)
               templateType).
  { intros options templateType recipientName.
    eexists. eexists. eexists.
    split; [apply (sendEmail_development svc dev)|].
    split; [reflexivity|]. split; [reflexivity|]. split; [discriminate|].
    split; [reflexivity|].
    split.
    { cbn. unfold transportCalls. rewrite filter_app. cbn.
      now rewrite app_nil_r. }
    split.
    { cbn. unfold auditRecords. rewrite flat_map_app. reflexivity. }
    split; [reflexivity|]. split; [reflexivity|].
    intros task wn.
    destruct (runDetached_development svc dev task wn) as [w' [-> [H _]]].
    exact H. }
  split; [exact Hgen|].
  intros to name eventName username password. apply Hgen.
Qed.

Lemma sendEmail_development_mode_witness :
  let svc := Samples.devService Samples.stored Samples.users in
  isDevelopmentMode svc = true
  /\ exists id w' record,
      sendRegistrationApproved svc "a@x.com" "Ann" "5K Run" "ann1" "pw123"
        world0
      = (Ok {| success := true; messageId := Some id; error := None;
               retryCount := 0; errorCategory := None |}, w')
      /\ startsWith id "dev-mode-" = true
      /\ sendMailCalls w' = 0%nat
      /\ auditRecords (events w') = [record]
      /\ EmailLog.templateType record = "registration_approved"
      /\ EmailLog.status record = "sent".
Proof.
  intros svc. split; [reflexivity|].
  destruct (proj2 (sendEmail_development_mode svc world0 eq_refl)
              "a@x.com" "Ann" "5K Run" "ann1" "pw123")
    as [id [w' [record [Hrun [_ [Hid [_ [Hcalls [_ [Ha [Ht [Hs _]]]]]]]]]]]].
  exists id, w', record. repeat split; assumption.
Defined.

(** ** The notification *)

Section Notification.

Lemma timers_snoc (evs : list Event) (ev : Event) :
  (forall d, ev <> SetTimeout d) ->
  timers (evs ++ [ev]) = timers evs.
Proof.
  intros H. unfold timers. rewrite flat_map_app. cbn.
  destruct ev; rewrite ?app_nil_r; try reflexivity.
  now elim (H delayMs).
Qed.

End Notification.

(** [notifySuperAdmin] catches whatever its body throws. *)
Lemma notifySuperAdmin_resolves (svc : Service) (task : Notify.t) (w : World) :
  exists w', notifySuperAdmin svc task w = (Ok tt, w').
Proof.
  unfold notifySuperAdmin. run_effects.
  destruct (getUsers svc) as [d [users|e]]; cbn; [|eauto].
  destruct (find isSuperAdmin users) as [admin|]; cbn; [|eauto].
  destruct (orNull (User.email admin)) as [email|]; cbn; [|eauto].
  destruct (isDevelopmentMode svc); cbn; [eauto|].
  destruct (transporter svc) as [t|]; cbn; [|eauto].
  destruct (t (sendMailCalls w) (notificationMail svc task email))
    as [ds [id|e]]; cbn; eauto.
Qed.

(** C9.  [notifySuperAdmin] resolves on every call; it calls the transport
    at most once and sets no timer.  When the directory holds no user with
    the role [super_admin] it prints a warning and is done; when the
    directory fails, or the one call of the transport fails, it prints the
    error and is done, without a second call. *)
Theorem notifySuperAdmin_contained (svc : Service) (task : Notify.t)
  (w : World) :
  exists w',
    notifySuperAdmin svc task w = (Ok tt, w')
    /\ (sendMailCalls w' <= S (sendMailCalls w))%nat
    /\ timers (events w') = timers (events w)
    /\ (forall d users,
           getUsers svc = (d, Ok users) ->
           find isSuperAdmin users = None ->
           console w' = (console w ++ [NoSuperadminFound])%list
           /\ level NoSuperadminFound = ConsoleWarn
           /\ sendMailCalls w' = sendMailCalls w)
    /\ (forall d e,
           getUsers svc = (d, Throw e) ->
           console w' = (console w ++ [FailedToSendAdminNotification])%list
           /\ sendMailCalls w' = sendMailCalls w)
    /\ (forall t d users admin email ds e,
           Live svc t ->
           getUsers svc = (d, Ok users) ->
           find isSuperAdmin users = Some admin ->
           orNull (User.email admin) = Some email ->
           t (sendMailCalls w) (notificationMail svc task email)
           = (ds, Throw e) ->
           console w' = (console w ++ [FailedToSendAdminNotification])%list
           /\ sendMailCalls w' = S (sendMailCalls w)
           /\ events w'
              = (events w
                 ++ [GetUsers; SendMail (notificationMail svc task email)])%list).
Proof.
  unfold notifySuperAdmin, Live. run_effects.
  destruct (getUsers svc) as [d [users|e]]; cbn.
  2:{ eexists. split; [reflexivity|]. cbn.
      split; [lia|]. split; [now apply timers_snoc|].
      repeat split; intros; congruence. }
  destruct (find isSuperAdmin users) as [admin|] eqn:Hfind; cbn.
  2:{ eexists. split; [reflexivity|]. cbn.
      split; [lia|]. split; [now apply timers_snoc|].
      repeat split; intros; congruence. }
  destruct (orNull (User.email admin)) as [email|] eqn:Hmail; cbn.
  2:{ eexists. split; [reflexivity|]. cbn.
      split; [lia|]. split; [now apply timers_snoc|].
      repeat split; intros; congruence. }
  destruct (isDevelopmentMode svc) eqn:Hdev; cbn.
  { eexists. split; [reflexivity|]. cbn.
    split; [lia|]. split; [now apply timers_snoc|].
    repeat split; intros; try congruence;
      match goal with H : _ /\ _ |- _ => destruct H end; congruence. }
  destruct (transporter svc) as [t|] eqn:Htr; cbn.
  2:{ eexists. split; [reflexivity|]. cbn.
      split; [lia|]. split; [now apply timers_snoc|].
      repeat split; intros; try congruence;
        match goal with H : _ /\ _ |- _ => destruct H end; congruence. }
  destruct (t (sendMailCalls w) (notificationMail svc task email))
    as [ds [id|e]] eqn:Hcall; cbn;
    (eexists; split; [reflexivity|]; cbn;
     split; [lia|];
     split; [rewrite !timers_snoc by discriminate; reflexivity|];
     split; [intros; congruence|]; split; [intros; congruence|];
     intros t' d' users' admin' email' ds' e' [_ Ht] Hu Hf Hm Hc;
     assert (t' = t) by congruence;
     assert (users' = users) by congruence; subst t' users';
     assert (admin' = admin) by congruence; subst admin';
     assert (email' = email) by congruence; subst email';
     rewrite Hcall in Hc; try discriminate Hc;
     rewrite <- ?app_assoc; repeat split; reflexivity).
Qed.

Lemma notifySuperAdmin_contained_witness :
  let t := Samples.failing 1 Samples.busy421 in
  let task :=
    notificationOf Samples.options "registration_approved" (Some "Ann") in
  (let svc := Samples.liveService t Samples.stored (3, Ok []) in
   exists w',
     notifySuperAdmin svc task world0 = (Ok tt, w')
     /\ console w' = [NoSuperadminFound]
     /\ sendMailCalls w' = 0%nat)
  /\ (let svc := Samples.liveService t Samples.stored Samples.users in
      exists w',
        notifySuperAdmin svc task world0 = (Ok tt, w')
        /\ console w' = [FailedToSendAdminNotification]
        /\ sendMailCalls w' = 1%nat).
Proof.
  intros t task. split; intros svc.
  - destruct (notifySuperAdmin_contained svc task world0)
      as [w' [Hrun [_ [_ [Hnone _]]]]].
    destruct (Hnone 3 [] eq_refl eq_refl) as [Hc [_ Hs]].
    exists w'. repeat split; assumption.
  - destruct (notifySuperAdmin_contained svc task world0)
      as [w' [Hrun [_ [_ [_ [_ Hfail]]]]]].
    destruct (Hfail t 3 [Samples.superadmin] Samples.superadmin
                "root@example.org" 20 Samples.busy421
                (conj eq_refl eq_refl) eq_refl eq_refl eq_refl eq_refl)
      as [Hc [Hs _]].
    exists w'. repeat split; assumption.
Defined.

(** The detached call with its handler resolves as well: nothing of the
    notification reaches the caller of [sendEmail]. *)
Lemma runDetached_never_raises (svc : Service) (task : Notify.t) (w : World) :
  exists w', runDetached svc task w = (Ok tt, w').
Proof.
  destruct (notifySuperAdmin_resolves svc task w) as [w' H].
  exists w'. unfold runDetached, tryCatch. now rewrite H.
Qed.

(** ** The second version *)

(** The second version resolves on every input, whatever the transport
    rejects with and whatever the store does: the error is never
    dereferenced on the way. *)
Lemma sendEmail_v2_never_raises (svc : Service) (options : EmailOptions.t)
  (templateType : string) (recipientName : option string) (w : World) :
  exists r w', V2.sendEmail svc options templateType recipientName w = (Ok r, w').
Proof.
  assert (Hretry : forall depth m maxRetries attempt w0,
             exists r w1,
               V2.sendWithRetryRec depth svc m maxRetries attempt w0 = (Ok r, w1)).
  { induction depth as [|depth IH]; intros m maxRetries attempt w0;
      cbn [V2.sendWithRetryRec]; unfold V2.sendWithRetryBody;
      (destruct (isDevelopmentMode svc); [run_effects; eauto|]);
      (destruct (transporter svc) as [t|]; [|run_effects; eauto]);
      run_effects;
      (destruct (t (sendMailCalls w0) m) as [d [id|e]]; cbn; [eauto|]);
      (destruct (isRetryableError_total e) as [b ->]; cbn);
      (destruct (b && (attempt <? maxRetries)); cbn; eauto). }
  unfold V2.sendEmail, V2.sendWithRetry, bind at 1.
  destruct (Hretry (Z.to_nat (3 - 1)) (mailOptionsOf svc options) 3 1 w)
    as [r [w1 ->]].
  run_effects.
  destruct (createEmailLog svc
              (auditRecord options templateType recipientName r))
    as [d [[]|e]]; cbn; destruct (success r); cbn; eauto.
Qed.

(** ** The constructor *)

(** The mode is fixed with the transporter: development mode exactly when
    there is none. *)
Lemma constructor_mode (penv : ProcessEnv) (user pass : option string)
  (createTransport : Transporter) (store : EmailLog.t -> Awaited unit)
  (directory : Awaited (list User.t))
  (approved : string -> string -> string -> string -> string)
  (adminNotification : string -> string -> string -> JsPrim -> Metadata -> string) :
  let svc :=
    constructor penv user pass createTransport store directory approved
      adminNotification in
  (isDevelopmentMode svc = true /\ transporter svc = None)
  \/ Live svc createTransport.
Proof.
  unfold constructor, Live. cbn.
  destruct (hasSmtpConfig (SMTP_HOST penv) user pass); cbn; auto.
Qed.

(** * Further properties of the code *)

(** ** The two classifiers together *)

(** X1.  [isRetryableError] returns true exactly on the raw errors that
    carry a code from 400 to 499 or whose lowercased text holds one of the
    eight transient patterns, and false on all others; it never throws. *)
Theorem isRetryableError_exactly (e : JsVal) :
  (isRetryableError e = Ok true
   <-> Carries4xx e \/ TextMatches retryablePatterns e)
  /\ (isRetryableError e = Ok false
      <-> ~ (Carries4xx e \/ TextMatches retryablePatterns e)).
Proof.
  split; [apply isRetryableError_true_iff|].
  rewrite isRetryableError_false_iff. tauto.
Qed.

Section CategoryFacts.

(** What [categorizeError] has seen when it answers with a category of a
    transient failure. *)
Lemma categorizeError_transient_text (e : JsVal) (c : ErrorCategory) :
  categorizeError e = Ok c -> isTransientCategory c = true ->
  includes (errorStringOf e) "socket hang up" = true
  \/ includes (errorStringOf e) "timeout" = true
  \/ includes (errorStringOf e) "etimedout" = true
  \/ includes (errorStringOf e) "network" = true.
Proof.
  unfold categorizeError. intros H T.
  repeat match type of H with
         | (if ?b then _ else _) = _ =>
             let B := fresh "B" in destruct b eqn:B
         end;
    try (injection H as <-; discriminate T).
  - tauto.
  - apply orb_true_iff in B3. tauto.
  - tauto.
  - destruct (getProp e F_responseCode) as [rc|]; cbn in H; [|discriminate H].
    destruct (truthyPrim rc || isSome (matchCode "5" (errorStringOf e)));
      injection H as <-; discriminate T.
Qed.

End CategoryFacts.

(** X2.  An error that [categorizeError] files under SOCKET_HANG_UP,
    TIMEOUT or NETWORK_ERROR is retryable: the patterns of these three
    rules are among the transient patterns of [isRetryableError]. *)
Theorem transient_category_is_retryable (e : JsVal) (c : ErrorCategory) :
  categorizeError e = Ok c ->
  isTransientCategory c = true ->
  isRetryableError e = Ok true.
Proof.
  intros H T. apply isRetryableError_true_iff. right.
  apply existsb_includes.
  destruct (categorizeError_transient_text e c H T) as [B | [B | [B | B]]];
    cbn; rewrite B, ?orb_true_r; reflexivity.
Qed.

Lemma transient_category_is_retryable_witness :
  let e := ErrorObj "Error" "Greeting never received: ETIMEDOUT"
             JUndefined (JString "ETIMEDOUT") in
  categorizeError e = Ok TIMEOUT /\ isRetryableError e = Ok true.
Proof.
  intros e. split; [reflexivity|].
  exact (transient_category_is_retryable e TIMEOUT eq_refl eq_refl).
Defined.

(** X3.  A temporary code that stands in the text only is retried without
    being recognised as a protocol error: when the text holds a standalone
    number from 400 to 499, no pattern of an earlier rule and no standalone
    number from 500 to 599, and the error has no truthy [responseCode], the
    category is UNKNOWN_ERROR and [isRetryableError] is true. *)
Theorem textual_4xx_unknown_but_retried (e : JsVal) (rc : JsPrim) :
  StandaloneCode "4" (errorStringOf e) ->
  ~ TextMatches earlierPatterns e ->
  ~ StandaloneCode "5" (errorStringOf e) ->
  getProp e F_responseCode = Ok rc -> truthyPrim rc = false ->
  categorizeError e = Ok UNKNOWN_ERROR /\ isRetryableError e = Ok true.
Proof.
  intros H4 Hp H5 Hrc Hf. split.
  - now apply (categorizeError_unknown e rc).
  - apply isRetryableError_true_iff. left. now left.
Qed.

Lemma textual_4xx_unknown_but_retried_witness :
  let e := Prim (JString "421 4.7.0 Service not available, try again later") in
  categorizeError e = Ok UNKNOWN_ERROR /\ isRetryableError e = Ok true.
Proof.
  intros e.
  assert (H4 : StandaloneCode "4" (errorStringOf e))
    by (apply matchCode_spec; reflexivity).
  assert (Hp : ~ TextMatches earlierPatterns e).
  { intros H. apply existsb_includes in H. discriminate H. }
  assert (H5 : ~ StandaloneCode "5" (errorStringOf e)).
  { intros H. apply matchCode_spec in H. discriminate H. }
  exact (textual_4xx_unknown_but_retried e JUndefined H4 Hp H5 eq_refl eq_refl).
Defined.

(** X4.  On every value but [null] and [undefined] [categorizeError]
    returns a category, and that category is UNKNOWN_ERROR exactly when the
    text holds no pattern of the eight textual rules and no standalone
    number from 500 to 599 and the [responseCode] is falsy. *)
Theorem categorizeError_unknown_exactly (e : JsVal) :
  isNullish e = false ->
  exists c rc,
    categorizeError e = Ok c
    /\ getProp e F_responseCode = Ok rc
    /\ (c = UNKNOWN_ERROR
        <-> ~ TextMatches earlierPatterns e
            /\ truthyPrim rc = false
            /\ ~ StandaloneCode "5" (errorStringOf e)).
Proof.
  intros N.
  destruct (getProp_not_nullish e F_responseCode N) as [rc Hrc].
  destruct (categorizeError_total e N) as [c Hc].
  exists c, rc. split; [exact Hc|]. split; [exact Hrc|]. split.
  - intros ->.
    assert (Hp : ~ TextMatches earlierPatterns e).
    { intros H. apply existsb_includes in H. revert Hc.
      unfold categorizeError. cbn in H.
      rewrite !orb_false_r in H.
      repeat match goal with
             | |- (if ?b then _ else _) = _ -> _ =>
                 let B := fresh "B" in
                 destruct b eqn:B; [discriminate|]
             end.
      intros _.
      repeat match goal with
             | B : _ || _ = false |- _ => apply orb_false_iff in B as [? ?]
             end.
      repeat match goal with
             | B : includes _ _ = false |- _ => rewrite B in H; clear B
             end.
      discriminate H. }
    split; [exact Hp|].
    rewrite (categorizeError_late_rules e Hp), Hrc in Hc. cbn in Hc.
    destruct (truthyPrim rc); [discriminate Hc|].
    split; [reflexivity|]. intros H5. apply matchCode_spec in H5.
    rewrite H5 in Hc. discriminate Hc.
  - intros [Hp [Hf H5]].
    rewrite (categorizeError_unknown e rc Hp Hrc Hf H5) in Hc. congruence.
Qed.

Lemma categorizeError_unknown_exactly_witness :
  let e := Prim (JString "mailbox is full") in
  isNullish e = false
  /\ exists c rc,
      categorizeError e = Ok c /\ getProp e F_responseCode = Ok rc
      /\ (c = UNKNOWN_ERROR
          <-> ~ TextMatches earlierPatterns e /\ truthyPrim rc = false
              /\ ~ StandaloneCode "5" (errorStringOf e)).
Proof.
  intros e. split; [reflexivity|].
  exact (categorizeError_unknown_exactly e eq_refl).
Defined.

(** ** The retry sequence in general *)

Section RetrySequence.

Variable svc : Service.
Variable t : Transporter.
Hypothesis live : Live svc t.
Hypothesis contract : RejectsWithValues svc.
Variable m : MailOptions.t.
Variable maxRetries : Z.

(** A whole run of [sendWithRetry] in production mode: the [n] retries it
    makes, the events, and how the run ends. *)
Lemma sendWithRetry_run (k : nat) :
  forall attempt w,
    Z.to_nat (maxRetries - attempt) = k ->
    exists (n : nat) r w',
      sendWithRetry svc m maxRetries attempt w = (Ok r, w')
      /\ (n <= k)%nat
      /\ events w' = (events w ++ schedule m attempt n)%list
      /\ sendMailCalls w' = (sendMailCalls w + S n)%nat
      /\ retryCount r = attempt - 1 + Z.of_nat n
      /\ (forall i, (i < n)%nat ->
            exists d e, t (sendMailCalls w + i)%nat m = (d, Throw e)
                        /\ isRetryableError e = Ok true)
      /\ match snd (t (sendMailCalls w + n)%nat m) with
         | Ok id =>
             r = {| success := true; messageId := Some id; error := None;
                    retryCount := retryCount r; errorCategory := None |}
         | Throw e =>
             exists c,
               categorizeError e = Ok c
               /\ r = failure (getErrorDetails (env svc) e c)
                        (retryCount r + 1) c
               /\ (isRetryableError e = Ok false
                   \/ maxRetries <= attempt + Z.of_nat n)
         end.
Proof.
  induction k as [|k IH]; intros attempt w Hk;
    destruct (t (sendMailCalls w) m) as [d [id|e]] eqn:Hcall.
  - exists O. eexists. eexists.
    split; [apply (sendWithRetry_sent svc t live m maxRetries attempt w d id Hcall)|].
    cbn. rewrite Nat.add_0_r, Hcall. cbn.
    repeat split; try lia; try reflexivity.
  - pose proof (contract t _ _ _ _ (proj2 live) Hcall) as N.
    destruct (categorizeError_total e N) as [c C].
    destruct (isRetryableError_total e) as [b R].
    assert (Hb : b && (attempt <? maxRetries) = false).
    { destruct (Z.ltb_spec attempt maxRetries); [lia | apply andb_false_r]. }
    exists O. eexists. eexists.
    split; [apply (sendWithRetry_gives_up svc t live m maxRetries attempt w d e
                     c b Hcall C R Hb)|].
    cbn. rewrite Nat.add_0_r, Hcall. cbn.
    repeat split; try lia; try reflexivity.
    exists c. split; [exact C|]. split.
    + unfold failure. cbn. repeat f_equal. lia.
    + right. lia.
  - exists O. eexists. eexists.
    split; [apply (sendWithRetry_sent svc t live m maxRetries attempt w d id Hcall)|].
    cbn. rewrite Nat.add_0_r, Hcall. cbn.
    repeat split; try lia; try reflexivity.
  - pose proof (contract t _ _ _ _ (proj2 live) Hcall) as N.
    destruct (categorizeError_total e N) as [c C].
    destruct (isRetryableError_total e) as [[] R].
    + assert (Hlt : attempt < maxRetries) by lia.
      rewrite (sendWithRetry_retries svc t live m maxRetries attempt w d e c
                 Hcall C R Hlt).
      match goal with
      | |- context [sendWithRetry svc m maxRetries (attempt + 1) ?w1] =>
          destruct (IH (attempt + 1) w1 ltac:(lia))
            as [n [r [w' [Hrun [Hn [Hev [Hcalls [Hcount [Hearlier Hlast]]]]]]]]]
      end.
      cbn [sendMailCalls afterSleep afterSendMail printed events] in *.
      exists (S n), r, w'. split; [exact Hrun|]. split; [lia|].
      split; [rewrite Hev; cbn; rewrite <- !app_assoc; reflexivity|].
      split; [lia|]. split; [lia|]. split.
      * intros [|i] Hi.
        -- rewrite Nat.add_0_r. eauto.
        -- destruct (Hearlier i ltac:(lia)) as [d' [e' [H1 H2]]].
           exists d', e'. split; [|exact H2].
           rewrite <- H1. f_equal. lia.
      * replace (sendMailCalls w + S n)%nat with (S (sendMailCalls w) + n)%nat
          by lia.
        destruct (snd (t (S (sendMailCalls w) + n)%nat m)) as [id|e'];
          [exact Hlast|].
        destruct Hlast as [c' [C' [Hr Hstop]]].
        exists c'. split; [exact C'|]. split; [exact Hr|].
        destruct Hstop; [now left | right; lia].
    + exists O. eexists. eexists.
      split; [apply (sendWithRetry_gives_up svc t live m maxRetries attempt w
                       d e c false Hcall C R eq_refl)|].
      cbn. rewrite Nat.add_0_r, Hcall. cbn.
      repeat split; try lia; try reflexivity.
      exists c. split; [exact C|]. split.
      * unfold failure. cbn. repeat f_equal. lia.
      * now left.
Qed.


End RetrySequence.

Section Modes.

Variable svc : Service.

Lemma mode_cases :
  (isDevelopmentMode svc = true \/ transporter svc = None)
  \/ exists t, Live svc t.
Proof.
  unfold Live. destruct (isDevelopmentMode svc); [now left; left|].
  destruct (transporter svc) as [t|]; [right; eauto | now left; right].
Qed.

(** Without a transporter the service logs, whatever the mode flag says. *)
Lemma sendWithRetry_logged (m : MailOptions.t) (maxRetries attempt : Z)
  (w : World) :
  isDevelopmentMode svc = true \/ transporter svc = None ->
  sendWithRetry svc m maxRetries attempt w
  = (Ok {| success := true;
           messageId := Some ("dev-mode-" ++ numberToString (now w));
           error := None; retryCount := 0; errorCategory := None |},
     printed w [DevModeEmailWouldBeSent]).
Proof.
  intros H. rewrite sendWithRetry_unfold. unfold sendWithRetryBody.
  destruct H as [-> | ->]; [reflexivity|].
  destruct (isDevelopmentMode svc); reflexivity.
Qed.

End Modes.



(** X6.  In production mode the last call of the transport decides the
    result of [sendWithRetry]: every call before it was rejected with a
    retryable error; when the last call is accepted the result is a success
    with its message id; when it is rejected the result is a failure with
    the category and the diagnostic of that last error, and either the error
    is not retryable or no attempt is left. *)
Theorem sendWithRetry_last_call_decides (svc : Service) (t : Transporter)
  (m : MailOptions.t) (maxRetries attempt : Z) (w : World) :
  Live svc t -> RejectsWithValues svc ->
  exists (n : nat) r w',
    sendWithRetry svc m maxRetries attempt w = (Ok r, w')
    /\ sendMailCalls w' = (sendMailCalls w + S n)%nat
    /\ (forall i, (i < n)%nat ->
          exists d e, t (sendMailCalls w + i)%nat m = (d, Throw e)
                      /\ isRetryableError e = Ok true)
    /\ match snd (t (sendMailCalls w + n)%nat m) with
       | Ok id =>
           success r = true /\ messageId r = Some id /\ error r = None
       | Throw e =>
           exists c,
             categorizeError e = Ok c
             /\ success r = false
             /\ errorCategory r = Some c
             /\ error r = Some (getErrorDetails (env svc) e c)
             /\ (isRetryableError e = Ok false
                 \/ maxRetries <= attempt + Z.of_nat n)
       end.
Proof.
  intros live contract.
  destruct (sendWithRetry_run svc t live contract m maxRetries
              (Z.to_nat (maxRetries - attempt)) attempt w eq_refl)
    as [n [r [w' [Hrun [_ [_ [Hcalls [_ [Hearlier Hlast]]]]]]]]].
  exists n, r, w'. split; [exact Hrun|]. split; [exact Hcalls|].
  split; [exact Hearlier|].
  destruct (snd (t (sendMailCalls w + n)%nat m)) as [id|e].
  - rewrite Hlast. repeat split.
  - destruct Hlast as [c [C [Hr Hstop]]]. exists c.
    split; [exact C|]. rewrite Hr. repeat split. exact Hstop.
Qed.

Lemma sendWithRetry_last_call_decides_witness :
  let t := Samples.failing 1 Samples.unknownUser550 in
  let svc := Samples.liveService t Samples.stored Samples.users in
  Live svc t /\ RejectsWithValues svc
  /\ exists r w',
      sendWithRetry svc Samples.mail 3 1 world0 = (Ok r, w')
      /\ sendMailCalls w' = 1%nat
      /\ errorCategory r = Some SMTP_PROTOCOL_ERROR.
Proof.
  intros t svc.
  assert (L : Live svc t) by (split; reflexivity).
  assert (H : RejectsWithValues svc).
  { intros t' k m d e Ht Hcall. injection Ht as <-.
    unfold t, Samples.failing in Hcall.
    destruct (k <? 1)%nat; [|discriminate Hcall].
    injection Hcall as _ <-. reflexivity. }
  split; [exact L|]. split; [exact H|].
  destruct (sendWithRetry_last_call_decides svc t Samples.mail 3 1 world0 L H)
    as [n [r [w' [Hrun [Hcalls [Hearlier Hlast]]]]]].
  assert (Hn : n = O).
  { destruct n as [|n]; [reflexivity|].
    destruct (Hearlier O ltac:(apply Nat.lt_0_succ)) as [d [e [H1 H2]]].
    cbn in H1. injection H1 as _ <-. discriminate H2. }
  subst n. cbn in Hlast. destruct Hlast as [c [C [_ [Hc _]]]].
  injection C as <-.
  exists r, w'. repeat split; assumption.
Defined.

(** X7.  Whatever the mode, the result of [sendWithRetry] is well shaped:
    a success carries a message id, no error text and no category; a
    failure carries an error text and a category and no message id. *)
Theorem sendWithRetry_well_shaped (svc : Service) (m : MailOptions.t)
  (maxRetries attempt : Z) (w : World) :
  RejectsWithValues svc ->
  exists r w',
    sendWithRetry svc m maxRetries attempt w = (Ok r, w') /\ WellShaped r.
Proof.
  intros contract. destruct (mode_cases svc) as [Hdev | [t live]].
  - rewrite (sendWithRetry_logged svc m maxRetries attempt w Hdev).
    eexists. eexists. split; [reflexivity|].
    unfold WellShaped. cbn. repeat split. discriminate.
  - destruct (sendWithRetry_run svc t live contract m maxRetries
                (Z.to_nat (maxRetries - attempt)) attempt w eq_refl)
      as [n [r [w' [Hrun [_ [_ [_ [_ [_ Hlast]]]]]]]]].
    exists r, w'. split; [exact Hrun|].
    destruct (snd (t (sendMailCalls w + n)%nat m)) as [id|e].
    + rewrite Hlast. unfold WellShaped. cbn. repeat split. discriminate.
    + destruct Hlast as [c [_ [-> _]]]. unfold WellShaped. cbn.
      repeat split; discriminate.
Qed.

Lemma sendWithRetry_well_shaped_witness :
  let t := Samples.failing 3 Samples.busy421 in
  let svc := Samples.liveService t Samples.stored Samples.users in
  RejectsWithValues svc
  /\ exists r w',
      sendWithRetry svc Samples.mail 3 1 world0 = (Ok r, w') /\ WellShaped r.
Proof.
  intros t svc.
  assert (H : RejectsWithValues svc).
  { intros t' k m d e Ht Hcall. injection Ht as <-.
    unfold t, Samples.failing in Hcall.
    destruct (k <? 3)%nat; [|discriminate Hcall].
    injection Hcall as _ <-. reflexivity. }
  split; [exact H|].
  exact (sendWithRetry_well_shaped svc Samples.mail 3 1 world0 H).
Defined.

Section DeliveryBounds.



End DeliveryBounds.



(** ** The audit record and the arguments of the notification *)

Section MetadataFacts.

Lemma lookupProp_setProp_same (md : Metadata) (k : string) (v : JsPrim) :
  lookupProp (setProp md k v) k = v.
Proof.
  induction md as [|[k' v'] md IH]; cbn.
  - now rewrite String.eqb_refl.
  - destruct (k' =? k)%string eqn:E; cbn; rewrite E; [reflexivity | exact IH].
Qed.

Lemma lookupProp_setProp_other (md : Metadata) (k k0 : string) (v : JsPrim) :
  k0 <> k -> lookupProp (setProp md k v) k0 = lookupProp md k0.
Proof.
  intros Hne. induction md as [|[k' v'] md IH]; cbn.
  - destruct (k =? k0)%string eqn:E; [|reflexivity].
    apply String.eqb_eq in E. congruence.
  - destruct (k' =? k)%string eqn:E; cbn.
    + apply String.eqb_eq in E. subst k'.
      destruct (k =? k0)%string eqn:E0; [|reflexivity].
      apply String.eqb_eq in E0. congruence.
    + destruct (k' =? k0)%string; [reflexivity | exact IH].
Qed.

End MetadataFacts.

(** X9.  In the audit record the key [retryCount] of the metadata always
    holds the [retryCount] of the result, also when the caller's metadata
    has a [retryCount] of its own; every other key holds what the caller's
    metadata holds, [undefined] when the caller gave none. *)
Theorem auditRecord_metadata (options : EmailOptions.t) (templateType : string)
  (recipientName : option string) (r : SendResult) :
  let md := EmailLog.metadata (auditRecord options templateType recipientName r) in
  lookupProp md "retryCount" = JNumber (retryCount r)
  /\ (forall k, k <> "retryCount" ->
        lookupProp md k
        = match EmailOptions.metadata options with
          | Some given => lookupProp given k
          | None => JUndefined
          end).
Proof.
  cbn. split.
  - apply lookupProp_setProp_same.
  - intros k Hk. rewrite lookupProp_setProp_other by exact Hk.
    destruct (EmailOptions.metadata options); reflexivity.
Qed.


(** ** The notification, further *)

Section NotificationFacts.

Lemma find_first (pre post : list User.t) (admin : User.t) :
  forallb (fun u => negb (isSuperAdmin u)) pre = true ->
  isSuperAdmin admin = true ->
  find isSuperAdmin (pre ++ admin :: post) = Some admin.
Proof.
  intros Hpre Ha. induction pre as [|u pre IH]; cbn.
  - now rewrite Ha.
  - cbn in Hpre. apply andb_true_iff in Hpre as [Hu Hpre].
    apply negb_true_iff in Hu. rewrite Hu. now apply IH.
Qed.

Lemma notify_events_snoc (evs : list Event) (ev : Event) :
  isNotifyEvent ev = true ->
  auditRecords (evs ++ [ev]) = auditRecords evs
  /\ detachedTasks (evs ++ [ev]) = detachedTasks evs.
Proof.
  intros H. unfold auditRecords, detachedTasks. rewrite !flat_map_app.
  destruct ev; try discriminate H; cbn; now rewrite !app_nil_r.
Qed.

End NotificationFacts.

(** X11.  [notifySuperAdmin] looks at the first user with the role
    [super_admin] and at no other.  When that user has no email address
    (none, or the empty text) it prints the warning and sends nothing,
    whoever comes later in the directory; when the user has one, in
    production mode, it sends the one message to that address. *)
Theorem notifySuperAdmin_first_superadmin (svc : Service) (task : Notify.t)
  (w : World) (d : Z) (pre post : list User.t) (admin : User.t) :
  getUsers svc = (d, Ok (pre ++ admin :: post)%list) ->
  forallb (fun u => negb (isSuperAdmin u)) pre = true ->
  isSuperAdmin admin = true ->
  (orNull (User.email admin) = None ->
   notifySuperAdmin svc task w
   = (Ok tt,
      {| now := now w + d; sendMailCalls := sendMailCalls w;
         events := (events w ++ [GetUsers])%list;
         console := (console w ++ [NoSuperadminFound])%list |}))
  /\ (forall email t ds id,
         orNull (User.email admin) = Some email ->
         Live svc t ->
         t (sendMailCalls w) (notificationMail svc task email) = (ds, Ok id) ->
         MailOptions.to (notificationMail svc task email) = email
         /\ notifySuperAdmin svc task w
            = (Ok tt,
               {| now := now w + d + ds; sendMailCalls := S (sendMailCalls w);
                  events :=
                    (events w
                     ++ [GetUsers; SendMail (notificationMail svc task email)])%list;
                  console := (console w ++ [AdminNotificationSent])%list |})).
Proof.
  intros Hu Hpre Ha.
  pose proof (find_first pre post admin Hpre Ha) as Hfind.
  split.
  - intros Hmail. unfold notifySuperAdmin. run_effects.
    rewrite Hu. cbn. rewrite Hfind. cbn. rewrite Hmail. reflexivity.
  - intros email t ds id Hmail [Hdev Ht] Hcall. split; [reflexivity|].
    unfold notifySuperAdmin. run_effects.
    rewrite Hu. cbn. rewrite Hfind. cbn. rewrite Hmail. cbn.
    rewrite Hdev, Ht. cbn. rewrite Hcall. cbn.
    rewrite <- app_assoc. reflexivity.
Qed.

Lemma notifySuperAdmin_first_superadmin_witness :
  let nobody := {| User.role := "super_admin"; User.email := Some "" |} in
  let judge := {| User.role := "event_admin"; User.email := Some "j@x.org" |} in
  let t := Samples.failing 0 Samples.busy421 in
  let svc :=
    Samples.liveService t Samples.stored
      (3, Ok ([judge] ++ nobody :: [Samples.superadmin])%list) in
  let task :=
    notificationOf Samples.options "registration_approved" (Some "Ann") in
  exists w',
    notifySuperAdmin svc task world0 = (Ok tt, w')
    /\ sendMailCalls w' = 0%nat
    /\ console w' = [NoSuperadminFound].
Proof.
  intros nobody judge t svc task.
  destruct (notifySuperAdmin_first_superadmin svc task world0 3 [judge]
              [Samples.superadmin] nobody eq_refl eq_refl eq_refl)
    as [Hnone _].
  eexists. split; [exact (Hnone eq_refl)|]. split; reflexivity.
Defined.

(** X12.  [notifySuperAdmin] touches the directory and the transport only:
    whatever happens it hands no audit record to the store and starts no
    notification, so a notification is never audited and never notified
    about. *)
Theorem notifySuperAdmin_leaves_no_record (svc : Service) (task : Notify.t)
  (w : World) :
  let w' := snd (runDetached svc task w) in
  fst (runDetached svc task w) = Ok tt
  /\ auditRecords (events w') = auditRecords (events w)
  /\ detachedTasks (events w') = detachedTasks (events w)
  /\ (sendMailCalls w' <= S (sendMailCalls w))%nat.
Proof.
  unfold runDetached, notifySuperAdmin. run_effects.
  pose proof (notify_events_snoc (events w) GetUsers eq_refl) as [Ha Hd].
  destruct (getUsers svc) as [d [users|e]]; cbn;
    [|repeat split; auto].
  destruct (find isSuperAdmin users) as [admin|]; cbn;
    [|repeat split; auto].
  destruct (orNull (User.email admin)) as [email|]; cbn;
    [|repeat split; auto].
  destruct (isDevelopmentMode svc); cbn; [repeat split; auto|].
  destruct (transporter svc) as [t|]; cbn; [|repeat split; auto].
  pose proof (notify_events_snoc (events w ++ [GetUsers])
                (SendMail (notificationMail svc task email)) eq_refl)
    as [Ha' Hd'].
  unfold auditRecords, detachedTasks in *.
  destruct (t (sendMailCalls w) (notificationMail svc task email))
    as [ds [id|e]]; cbn; repeat split; auto; congruence.
Qed.

(** ** The constructor *)

Section ConstructorFacts.

Lemma orElse_empty_iff (v : option string) :
  (orElse v "" =? "")%string = true <-> unset v.
Proof.
  unfold unset. destruct v as [[|c s]|]; cbn; split; intros H; auto;
    try discriminate H; destruct H as [H | H]; discriminate H.
Qed.

Lemma append_assoc (a b c : string) : ((a ++ b) ++ c = a ++ (b ++ c))%string.
Proof. induction a as [|x a IH]; cbn; [reflexivity | now rewrite IH]. Qed.

Lemma numberToString_not_empty (n : Z) : numberToString n <> "".
Proof.
  intros H. pose proof (parseInt_numberToString n) as P.
  rewrite H in P. discriminate P.
Qed.

End ConstructorFacts.

(** X13.  The constructor puts the service in development mode exactly
    when SMTP_HOST, SMTP_USER or SMTP_PASS is unset or empty; it has no
    transporter exactly in development mode, and the transporter nodemailer
    creates otherwise.  So the two tests of [isDevelopmentMode || !transporter]
    always agree. *)
Theorem constructor_development_iff (penv : ProcessEnv)
  (user pass : option string) (createTransport : Transporter)
  (store : EmailLog.t -> Awaited unit) (directory : Awaited (list User.t))
  (approved : string -> string -> string -> string -> string)
  (adminNotification : string -> string -> string -> JsPrim -> Metadata -> string) :
  let svc :=
    constructor penv user pass createTransport store directory approved
      adminNotification in
  (isDevelopmentMode svc = true
   <-> unset (SMTP_HOST penv) \/ unset user \/ unset pass)
  /\ (transporter svc = None <-> isDevelopmentMode svc = true)
  /\ (isDevelopmentMode svc = false <-> transporter svc = Some createTransport).
Proof.
  cbn. unfold hasSmtpConfig.
  rewrite <- !orElse_empty_iff.
  destruct (orElse (SMTP_HOST penv) "" =? "")%string,
    (orElse user "" =? "")%string, (orElse pass "" =? "")%string; cbn;
    repeat split; intros; try tauto; try discriminate;
    try (destruct H as [H | [H | H]]; discriminate H).
Qed.

(** X14.  The port of the transporter is 587 when SMTP_PORT is unset or
    empty, and the connection is then not secure.  For a port written in
    plain decimal the connection is secure exactly when the port is 465.
    The second version, which compares the text with [465], agrees on that
    spelling only: a text that [parseInt] reads as 465 and that is not
    [465] is secure in the latest version and not in the second. *)
Theorem smtpPort_secure (penv : ProcessEnv) :
  (unset (SMTP_PORT penv) -> smtpPort penv = Some 587 /\ isSecure penv = false)
  /\ (forall n, SMTP_PORT penv = Some (numberToString n) ->
        smtpPort penv = Some n /\ (isSecure penv = true <-> n = 465))
  /\ (isSecureV2 penv = true -> isSecure penv = true)
  /\ (forall s, SMTP_PORT penv = Some s -> parseInt s = Some 465 ->
        s <> "465" -> isSecure penv = true /\ isSecureV2 penv = false).
Proof.
  unfold isSecure, isSecureV2, smtpPort.
  assert (Hplain : forall n,
             orElse (Some (numberToString n)) "587" = numberToString n).
  { intros n. unfold orElse.
    destruct (numberToString n =? "")%string eqn:E; [|reflexivity].
    apply String.eqb_eq in E. now apply numberToString_not_empty in E. }
  split; [|split; [|split]].
  - intros [-> | ->]; split; reflexivity.
  - intros n ->. rewrite Hplain, parseInt_numberToString.
    split; [reflexivity | apply Z.eqb_eq].
  - destruct (SMTP_PORT penv) as [s|]; [|discriminate].
    intros H. apply String.eqb_eq in H. subst s. reflexivity.
  - intros s -> Hs Hne. split.
    + unfold orElse. destruct (s =? "")%string eqn:E.
      * apply String.eqb_eq in E. subst s. discriminate Hs.
      * now rewrite Hs.
    + now apply String.eqb_neq.
Qed.

Lemma smtpPort_secure_witness :
  let penv :=
    {| SMTP_HOST := Some "smtp.example.org"; SMTP_PORT := Some " 465";
       SMTP_FROM := None |} in
  isSecure penv = true /\ isSecureV2 penv = false.
Proof.
  intros penv.
  exact (proj2 (proj2 (proj2 (smtpPort_secure penv))) " 465" eq_refl eq_refl
           ltac:(discriminate)).
Defined.

(** X15.  When SMTP_PORT is unset the transporter connects to port 587,
    and the diagnostics of a refused connection and of a timeout print the
    port as [undefined]. *)
Theorem diagnostic_prints_unset_port (penv : ProcessEnv) (e : JsVal) :
  SMTP_PORT penv = None ->
  smtpPort penv = Some 587
  /\ Substring ":undefined." (getErrorDetails penv e CONNECTION_REFUSED)
  /\ Substring ":undefined." (getErrorDetails penv e TIMEOUT).
Proof.
  intros H. split; [unfold smtpPort; now rewrite H|].
  unfold getErrorDetails. rewrite H. cbn [interpolate].
  split; eexists; eexists; rewrite <- append_assoc; reflexivity.
Qed.

Lemma diagnostic_prints_unset_port_witness :
  let penv :=
    {| SMTP_HOST := Some "smtp.example.org"; SMTP_PORT := None;
       SMTP_FROM := None |} in
  SMTP_PORT penv = None
  /\ getErrorDetails penv Samples.busy421 CONNECTION_REFUSED
     = "Connection refused to SMTP server smtp.example.org:undefined. Verify host and port are correct."
  /\ Substring ":undefined."
       (getErrorDetails penv Samples.busy421 CONNECTION_REFUSED).
Proof.
  intros penv. split; [reflexivity|]. split; [reflexivity|].
  exact (proj1 (proj2 (diagnostic_prints_unset_port penv Samples.busy421
                         eq_refl))).
Defined.

(** ** The operations built on [sendEmail] *)

Section Builders.

Variable svc : Service.
Hypothesis contract : RejectsWithValues svc.

(** What one [sendEmail] call leaves behind: one audit record, and one
    notification after a success. *)
Lemma sendEmail_record (options : EmailOptions.t) (templateType : string)
  (recipientName : option string) (w : World) :
  exists r w',
    sendEmail svc options templateType recipientName w = (Ok r, w')
    /\ auditRecords (events w')
       = (auditRecords (events w)
          ++ [auditRecord options templateType recipientName r])%list
    /\ detachedTasks (events w')
       = (detachedTasks (events w)
          ++ if success r
             then [notificationOf options templateType recipientName]
             else [])%list.
Proof.
  destruct (sendWithRetry_returns svc (mailOptionsOf svc options) 3 1 w contract)
    as [r [w1 Hr]].
  pose proof (sendWithRetry_no_record svc (mailOptionsOf svc options) 3 1 w)
    as Hno.
  rewrite Hr in Hno. cbn in Hno. destruct Hno as [Ha Hd].
  exists r. eexists.
  split; [apply sendEmail_after_retry; exact Hr|].
  cbn [afterAudit events]. unfold auditRecords, detachedTasks in *.
  rewrite !flat_map_app, Ha, Hd. cbn.
  destruct (success r); split; reflexivity.
Qed.

End Builders.



(** X17.  [sendResultPublished] hands the store one audit record with the
    tag [result_published] whose metadata holds the event name, the score
    and the rank as numbers, and the retry count; after a success it starts
    one notification, whose event name is the event name given, or [N/A]
    when that is empty. *)
Theorem sendResultPublished_record
  (generateResultPublishedEmail : string -> string -> Z -> Z -> string)
  (svc : Service) (to name eventName : string) (score rank : Z) (w : World) :
  RejectsWithValues svc ->
  exists r w' record,
    sendResultPublished generateResultPublishedEmail svc to name eventName
      score rank w
    = (Ok r, w')
    /\ auditRecords (events w') = (auditRecords (events w) ++ [record])%list
    /\ EmailLog.templateType record = "result_published"
    /\ EmailLog.subject record = "Results Published - " ++ eventName
    /\ EmailLog.metadata record
       = [("eventName", JString eventName); ("score", JNumber score);
          ("rank", JNumber rank); ("retryCount", JNumber (retryCount r))]
    /\ (EmailLog.status record = "sent" <-> success r = true)
    /\ (success r = false ->
        detachedTasks (events w') = detachedTasks (events w))
    /\ (success r = true ->
        exists task,
          detachedTasks (events w') = (detachedTasks (events w) ++ [task])%list
          /\ Notify.emailType task = "result_published"
          /\ Notify.recipientEmail task = to
          /\ Notify.eventName task
             = JString (if (eventName =? "")%string then "N/A" else eventName)).
Proof.
  intros contract. unfold sendResultPublished.
  match goal with
  | |- context [sendEmail svc ?options ?tag ?rn w] =>
      destruct (sendEmail_record svc contract options tag rn w)
        as [r [w' [Hrun [Ha Hd]]]]
  end.
  exists r, w'. eexists. split; [exact Hrun|]. split; [exact Ha|].
  cbn. repeat split.
  - destruct (success r); [reflexivity | discriminate].
  - destruct (success r); [reflexivity | discriminate].
  - intros Hs. rewrite Hs in Hd. now rewrite app_nil_r in Hd.
  - intros Hs. rewrite Hs in Hd. eexists. split; [exact Hd|].
    cbn. repeat split.
    destruct eventName; reflexivity.
Qed.

Lemma sendResultPublished_record_witness :
  let t := Samples.failing 0 Samples.busy421 in
  let svc := Samples.liveService t Samples.stored Samples.users in
  RejectsWithValues svc
  /\ exists r w' record,
      sendResultPublished (fun name _ _ _ => name) svc "a@x.com" "Ann" ""
        87 3 world0
      = (Ok r, w')
      /\ auditRecords (events w') = [record]
      /\ EmailLog.metadata record
         = [("eventName", JString ""); ("score", JNumber 87);
            ("rank", JNumber 3); ("retryCount", JNumber (retryCount r))].
Proof.
  intros t svc.
  assert (H : RejectsWithValues svc).
  { intros t' k m d e Ht Hcall. injection Ht as <-.
    unfold t, Samples.failing in Hcall. cbn in Hcall. discriminate Hcall. }
  split; [exact H|].
  destruct (sendResultPublished_record (fun name _ _ _ => name) svc "a@x.com"
              "Ann" "" 87 3 world0 H)
    as [r [w' [record [Hrun [Ha [_ [_ [Hm _]]]]]]]].
  exists r, w', record. repeat split; assumption.
Defined.

(** X18.  [sendTestStartReminder] is the one operation that rejects: on an
    invalid date [toISOString] throws while the options are built, and the
    call rejects before anything is sent, logged or recorded.  On a valid
    date it resolves like [sendEmail], with the tag [test_start_reminder]
    and the ISO text of the date in the metadata. *)
Theorem sendTestStartReminder_invalid_date
  (generateTestStartReminderEmail : string -> string -> string -> JsDate -> string)
  (iso : Z -> string)
  (svc : Service) (to name eventName roundName : string) (w : World) :
  (exists err,
      sendTestStartReminder generateTestStartReminderEmail iso svc to name
        eventName roundName None w
      = (Throw err, w))
  /\ (forall time,
         RejectsWithValues svc ->
         exists r w' record,
           sendTestStartReminder generateTestStartReminderEmail iso svc to name
             eventName roundName (Some time) w
           = (Ok r, w')
           /\ auditRecords (events w')
              = (auditRecords (events w) ++ [record])%list
           /\ EmailLog.templateType record = "test_start_reminder"
           /\ lookupProp (EmailLog.metadata record) "startTime"
              = JString (iso time)).
Proof.
  split.
  - eexists. reflexivity.
  - intros time contract. unfold sendTestStartReminder. cbn [toISOString].
    unfold bind at 1, liftR.
    match goal with
    | |- context [sendEmail svc ?options ?tag ?rn w] =>
        destruct (sendEmail_record svc contract options tag rn w)
          as [r [w' [Hrun [Ha _]]]]
    end.
    exists r, w'. eexists. split; [exact Hrun|]. split; [exact Ha|].
    split; reflexivity.
Qed.

(** ** The earlier versions *)

Section EarlierVersions.

Lemma sendWithRetryRec_v1_returns (t : Transporter) (m : MailOptions.t)
  (maxRetries : Z) (depth : nat) :
  forall attempt w,
  exists r w',
    V1.sendWithRetryRec depth t m maxRetries attempt w = (Ok r, w')
    /\ (success r = true -> messageId r <> None /\ error r = None)
    /\ (success r = false ->
        messageId r = None
        /\ (error r = Some "Unknown error"
            \/ exists e, instanceofError e = true /\ error r = Some (message e))).
Proof.
  assert (Hfail : forall e attempt,
             let r := {| success := false; messageId := None;
                         error := Some (if instanceofError e then message e
                                        else "Unknown error");
                         retryCount := attempt - 1; errorCategory := None |} in
             (success r = true -> messageId r <> None /\ error r = None)
             /\ (success r = false ->
                 messageId r = None
                 /\ (error r = Some "Unknown error"
                     \/ exists e', instanceofError e' = true
                                   /\ error r = Some (message e')))).
  { intros e attempt. cbn. split; [discriminate|]. intros _. split; [reflexivity|].
    destruct (instanceofError e) eqn:E; [right; eauto | now left]. }
  induction depth as [|depth IH]; intros attempt w;
    cbn [V1.sendWithRetryRec]; unfold V1.sendWithRetryBody; run_effects;
    (destruct (t (sendMailCalls w) m) as [d [id|e]]; cbn;
     [eexists; eexists; split; [reflexivity|]; cbn;
      split; [intros _; split; [discriminate | reflexivity] | discriminate]|]);
    (destruct (isRetryableError_total e) as [b ->]; cbn);
    (destruct (b && (attempt <? maxRetries)); cbn;
     [|eexists; eexists; split; [reflexivity | apply Hfail]]).
  - eexists. eexists. split; [reflexivity | apply Hfail].
  - apply IH.
Qed.

End EarlierVersions.


(** X20.  In the first version [sendEmail] rejects exactly when the store
    rejects the audit record, and then with the error of the store; when
    the store accepts, it resolves to the result of the retry sequence. *)
Theorem sendEmail_v1_raises_iff (svc : Service) (t : Transporter)
  (options : EmailOptions.t) (templateType : string)
  (recipientName : option string) (w : World) :
  exists r w1,
    V1.sendWithRetry t (mailOptionsOf svc options) 3 1 w = (Ok r, w1)
    /\ match snd (createEmailLog svc
                    (auditRecord options templateType recipientName r)) with
       | Ok _ =>
           exists w',
             V1.sendEmail svc t options templateType recipientName w
             = (Ok r, w')
       | Throw e =>
           exists w',
             V1.sendEmail svc t options templateType recipientName w
             = (Throw e, w')
             /\ auditRecords (events w')
                = (auditRecords (events w1)
                   ++ [auditRecord options templateType recipientName r])%list
       end.
Proof.
  destruct (sendWithRetryRec_v1_returns t (mailOptionsOf svc options) 3
              (Z.to_nat (3 - 1)) 1 w) as [r [w1 [Hr _]]].
  assert (Hr' : V1.sendWithRetry t (mailOptionsOf svc options) 3 1 w
                = (Ok r, w1)) by exact Hr.
  exists r, w1. split; [exact Hr'|].
  destruct (createEmailLog svc
              (auditRecord options templateType recipientName r))
    as [d [[]|e]] eqn:Hs; cbn [snd].
  - eexists. unfold V1.sendEmail, bind at 1. rewrite Hr'.
    run_effects. rewrite Hs. reflexivity.
  - eexists. split.
    + unfold V1.sendEmail, bind at 1. rewrite Hr'.
      run_effects. rewrite Hs. reflexivity.
    + cbn. unfold auditRecords. rewrite flat_map_app. reflexivity.
Qed.

Section VersionsAgree.

Variable svc : Service.
Hypothesis contract : RejectsWithValues svc.

Lemma sendWithRetryRec_v2_agrees (m : MailOptions.t) (maxRetries : Z)
  (depth : nat) :
  forall attempt w w2,
    now w2 = now w -> sendMailCalls w2 = sendMailCalls w ->
    events w2 = events w ->
    exists r r2 w' w2',
      sendWithRetryRec depth svc m maxRetries attempt w = (Ok r, w')
      /\ V2.sendWithRetryRec depth svc m maxRetries attempt w2 = (Ok r2, w2')
      /\ outcome r2 = outcome r
      /\ now w2' = now w' /\ sendMailCalls w2' = sendMailCalls w'
      /\ events w2' = events w'.
Proof.
  induction depth as [|depth IH]; intros attempt w w2 Hnow Hcalls Hev;
    cbn [sendWithRetryRec V2.sendWithRetryRec];
    unfold sendWithRetryBody, V2.sendWithRetryBody;
    (destruct (isDevelopmentMode svc);
     [run_effects; rewrite Hnow; do 4 eexists;
      repeat split; try reflexivity; assumption|]);
    (destruct (transporter svc) as [t|] eqn:Ht;
     [|run_effects; rewrite Hnow; do 4 eexists;
       repeat split; try reflexivity; assumption]);
    run_effects; rewrite Hcalls, Hnow, Hev;
    (destruct (t (sendMailCalls w) m) as [d [id|e]] eqn:Hcall; cbn;
     [do 4 eexists; repeat split; reflexivity|]);
    (destruct (categorizeError_total e (contract t _ _ _ _ Ht Hcall))
       as [c ->]; cbn);
    (destruct (isRetryableError_total e) as [b ->]; cbn);
    (destruct (b && (attempt <? maxRetries)); cbn;
     [|do 4 eexists; repeat split; reflexivity]).
  - do 4 eexists; repeat split; reflexivity.
  - apply IH; reflexivity.
Qed.

End VersionsAgree.

(** X21.  The second and the latest version of [sendWithRetry] agree on
    what the caller of [sendEmail] is typed to see: run on the same
    service, whose transport rejects with error values, they return the
    same success flag, message id and retry count, and leave the same
    events, the same number of transport calls and the same clock; they
    differ in the error text and the category. *)
Theorem sendWithRetry_v2_agrees (svc : Service) (m : MailOptions.t)
  (maxRetries attempt : Z) (w : World) :
  RejectsWithValues svc ->
  exists r r2 w' w2',
    sendWithRetry svc m maxRetries attempt w = (Ok r, w')
    /\ V2.sendWithRetry svc m maxRetries attempt w = (Ok r2, w2')
    /\ outcome r2 = outcome r
    /\ now w2' = now w' /\ sendMailCalls w2' = sendMailCalls w'
    /\ events w2' = events w'.
Proof.
  intros contract.
  apply (sendWithRetryRec_v2_agrees svc contract); reflexivity.
Qed.

Lemma sendWithRetry_v2_agrees_witness :
  let t := Samples.failing 1 Samples.busy421 in
  let svc := Samples.liveService t Samples.stored Samples.users in
  RejectsWithValues svc
  /\ exists r r2 w' w2',
      sendWithRetry svc Samples.mail 3 1 world0 = (Ok r, w')
      /\ V2.sendWithRetry svc Samples.mail 3 1 world0 = (Ok r2, w2')
      /\ outcome r2 = outcome r
      /\ events w2' = events w'.
Proof.
  intros t svc.
  assert (H : RejectsWithValues svc).
  { intros t' k m d e Ht Hcall. injection Ht as <-.
    unfold t, Samples.failing in Hcall.
    destruct (k <? 1)%nat; [|discriminate Hcall].
    injection Hcall as _ <-. reflexivity. }
  split; [exact H|].
  destruct (sendWithRetry_v2_agrees svc Samples.mail 3 1 world0 H)
    as [r [r2 [w' [w2' [H1 [H2 [H3 [_ [_ H4]]]]]]]]].
  exists r, r2, w', w2'. repeat split; assumption.
Defined.

(** ** Timers *)

(** X22.  The delay of the backoff is honoured up to attempt 22: for an
    attempt from 1 to 22 the timer waits 2^(attempt-1) * 1000 ms; from
    attempt 23 on the delay no longer fits a timer of Node and the timer
    fires after 1 ms. *)
Theorem backoff_timer_overflow (attempt : Z) :
  (1 <= attempt <= 22 ->
   timerDelay (backoffDelay attempt) = 2 ^ (attempt - 1) * 1000
   /\ 1000 <= timerDelay (backoffDelay attempt))
  /\ (23 <= attempt -> timerDelay (backoffDelay attempt) = 1).
Proof.
  unfold timerDelay, backoffDelay. split.
  - intros H.
    assert (Hlo : 2 ^ 0 <= 2 ^ (attempt - 1))
      by (apply Z.pow_le_mono_r; lia).
    assert (Hhi : 2 ^ (attempt - 1) <= 2 ^ 21)
      by (apply Z.pow_le_mono_r; lia).
    change (2 ^ 0) with 1 in Hlo. change (2 ^ 21) with 2097152 in Hhi.
    destruct (Z.ltb_spec (2 ^ (attempt - 1) * 1000) 1); [lia|].
    destruct (Z.ltb_spec 2147483647 (2 ^ (attempt - 1) * 1000)); [lia|].
    cbn. lia.
  - intros H.
    assert (Hlo : 2 ^ 22 <= 2 ^ (attempt - 1))
      by (apply Z.pow_le_mono_r; lia).
    change (2 ^ 22) with 4194304 in Hlo.
    destruct (Z.ltb_spec (2 ^ (attempt - 1) * 1000) 1); [reflexivity|].
    destruct (Z.ltb_spec 2147483647 (2 ^ (attempt - 1) * 1000));
      [reflexivity | lia].
Qed.

Lemma backoff_timer_overflow_witness :
  timerDelay (backoffDelay 3) = 4000 /\ timerDelay (backoffDelay 23) = 1.
Proof.
  split.
  - exact (proj1 (proj1 (backoff_timer_overflow 3) ltac:(lia))).
  - exact (proj2 (backoff_timer_overflow 23) ltac:(lia)).
Defined.

(** ** Edge cases of a delivery *)

(** X23.  In the latest version [sendEmail] resolves to the result of the
    retry sequence whether the store accepts the audit record or rejects
    it; a rejection is printed as one warning, and nothing is printed about
    the store when it accepts. *)
Theorem sendEmail_contains_store_failure (svc : Service)
  (options : EmailOptions.t) (templateType : string)
  (recipientName : option string) (w : World) :
  RejectsWithValues svc ->
  exists r w1 w',
    sendWithRetry svc (mailOptionsOf svc options) 3 1 w = (Ok r, w1)
    /\ sendEmail svc options templateType recipientName w = (Ok r, w')
    /\ level FailedToLogEmail = ConsoleWarn
    /\ exists line,
        console w'
        = (console w1
           ++ match snd (createEmailLog svc
                           (auditRecord options templateType recipientName r))
              with
              | Ok _ => []
              | Throw _ => [FailedToLogEmail]
              end ++ [line])%list
        /\ line <> FailedToLogEmail.
Proof.
  intros contract.
  destruct (sendWithRetry_returns svc (mailOptionsOf svc options) 3 1 w contract)
    as [r [w1 Hr]].
  exists r, w1. eexists. split; [exact Hr|].
  split; [apply sendEmail_after_retry; exact Hr|].
  split; [reflexivity|].
  cbn [afterAudit console]. eexists. split; [reflexivity|].
  destruct (success r); [destruct (isDevelopmentMode svc)|]; discriminate.
Qed.

Lemma sendEmail_contains_store_failure_witness :
  let t := Samples.failing 0 Samples.busy421 in
  let svc := Samples.liveService t Samples.storeDown Samples.users in
  RejectsWithValues svc
  /\ exists r w',
      sendEmail svc Samples.options "registration_approved" (Some "Ann") world0
      = (Ok r, w')
      /\ success r = true
      /\ In FailedToLogEmail (console w').
Proof.
  intros t svc.
  assert (H : RejectsWithValues svc).
  { intros t' k m d e Ht Hcall. injection Ht as <-.
    unfold t, Samples.failing in Hcall. cbn in Hcall. discriminate Hcall. }
  split; [exact H|].
  destruct (sendEmail_contains_store_failure svc Samples.options
              "registration_approved" (Some "Ann") world0 H)
    as [r [w1 [w' [Hretry [Hrun [_ [line [Hc _]]]]]]]].
  assert (Hr : r = {| success := true; messageId := Some "<1@example.org>";
                      error := None; retryCount := 0;
                      errorCategory := None |}).
  { assert (E : fst (sendWithRetry svc (mailOptionsOf svc Samples.options)
                       3 1 world0)
                = Ok {| success := true; messageId := Some "<1@example.org>";
                        error := None; retryCount := 0;
                        errorCategory := None |}) by reflexivity.
    rewrite Hretry in E. cbn in E. now injection E. }
  exists r, w'. split; [exact Hrun|]. split; [now rewrite Hr|].
  rewrite Hc, Hr. cbn. apply in_or_app. right. now left.
Defined.

(** X24.  In production mode, when the first attempt fails with an [Error]
    whose message is empty, whose category is unknown and which is not
    retryable, the delivery fails with the empty text as its error: the
    audit record has the status [failed] and no error message. *)
Theorem sendEmail_failure_without_message (svc : Service) (t : Transporter)
  (options : EmailOptions.t) (templateType : string)
  (recipientName : option string) (w : World) (d : Z) (e : JsVal) :
  Live svc t ->
  t (sendMailCalls w) (mailOptionsOf svc options) = (d, Throw e) ->
  instanceofError e = true -> message e = "" ->
  categorizeError e = Ok UNKNOWN_ERROR ->
  isRetryableError e = Ok false ->
  exists r w' record,
    sendEmail svc options templateType recipientName w = (Ok r, w')
    /\ success r = false /\ error r = Some ""
    /\ auditRecords (events w') = (auditRecords (events w) ++ [record])%list
    /\ EmailLog.status record = "failed"
    /\ EmailLog.errorMessage record = None.
Proof.
  intros live Hcall Hi Hm C R.
  pose proof (sendWithRetry_gives_up svc t live (mailOptionsOf svc options)
                3 1 w d e UNKNOWN_ERROR false Hcall C R eq_refl) as Hrun.
  eexists. eexists. eexists.
  split; [apply (sendEmail_after_retry svc options templateType recipientName
                   w _ _ Hrun)|].
  unfold getErrorDetails. rewrite Hi, Hm. cbn.
  split; [reflexivity|]. split; [reflexivity|]. split; [|split].
  - unfold auditRecords. rewrite !flat_map_app. cbn.
    rewrite app_nil_r. reflexivity.
  - reflexivity.
  - reflexivity.
Qed.

Lemma sendEmail_failure_without_message_witness :
  let e := ErrorObj "Error" "" JUndefined JUndefined in
  let t : Transporter := fun _ _ => (20, Throw e) in
  let svc := Samples.liveService t Samples.stored Samples.users in
  Live svc t
  /\ exists r w' record,
      sendEmail svc Samples.options "registration_approved" (Some "Ann") world0
      = (Ok r, w')
      /\ error r = Some ""
      /\ auditRecords (events w') = [record]
      /\ EmailLog.status record = "failed"
      /\ EmailLog.errorMessage record = None.
Proof.
  intros e t svc.
  assert (L : Live svc t) by (split; reflexivity).
  split; [exact L|].
  destruct (sendEmail_failure_without_message svc t Samples.options
              "registration_approved" (Some "Ann") world0 20 e L
              eq_refl eq_refl eq_refl eq_refl eq_refl)
    as [r [w' [record [Hrun [_ [He [Ha [Hs Hm]]]]]]]].
  exists r, w', record. repeat split; assumption.
Defined.

Section DevelopmentIds.

Lemma numberToString_inj (a b : Z) :
  numberToString a = numberToString b -> a = b.
Proof.
  intros H. pose proof (parseInt_numberToString a) as Pa.
  rewrite H, parseInt_numberToString in Pa. congruence.
Qed.

End DevelopmentIds.

(** X25.  The message ids of development mode tell two deliveries apart
    exactly when they happen at different milliseconds: two calls at the
    same time get the same id. *)
Theorem development_ids_follow_the_clock (svc : Service)
  (m1 m2 : MailOptions.t) (w1 w2 : World) :
  isDevelopmentMode svc = true ->
  exists id1 id2,
    messageId_of (fst (sendWithRetry svc m1 3 1 w1)) = Some id1
    /\ messageId_of (fst (sendWithRetry svc m2 3 1 w2)) = Some id2
    /\ (id1 = id2 <-> now w1 = now w2).
Proof.
  intros dev.
  rewrite (sendWithRetry_logged svc m1 3 1 w1 (or_introl dev)).
  rewrite (sendWithRetry_logged svc m2 3 1 w2 (or_introl dev)).
  eexists. eexists. split; [reflexivity|]. split; [reflexivity|].
  split.
  - intros H. injection H as H. now apply numberToString_inj.
  - intros ->. reflexivity.
Qed.

Lemma development_ids_follow_the_clock_witness :
  let svc := Samples.devService Samples.stored Samples.users in
  isDevelopmentMode svc = true
  /\ exists id1 id2,
      messageId_of (fst (sendWithRetry svc Samples.mail 3 1 world0)) = Some id1
      /\ messageId_of (fst (sendWithRetry svc Samples.mail 3 1 world0))
         = Some id2
      /\ id1 = id2.
Proof.
  intros svc. split; [reflexivity|].
  destruct (development_ids_follow_the_clock svc Samples.mail Samples.mail
              world0 world0 eq_refl) as [id1 [id2 [H1 [H2 H3]]]].
  exists id1, id2. split; [exact H1|]. split; [exact H2|].
  now apply H3.
Defined.

(** ** The versions and the collaborators *)

(** X26.  In the second version [sendEmail] resolves on every input:
    whatever the transport rejects with, [null] and [undefined] included,
    and whatever the store does. *)
Theorem sendEmail_v2_resolves (svc : Service) (options : EmailOptions.t)
  (templateType : string) (recipientName : option string) (w : World) :
  exists r w', V2.sendEmail svc options templateType recipientName w = (Ok r, w').
Proof. apply sendEmail_v2_never_raises. Qed.

(** X27.  What [sendEmail] resolves to, or rejects with, does not depend
    on the store nor on the directory: a service that differs in these two
    collaborators only gives the caller the same answer. *)
Theorem sendEmail_result_independent (svc : Service) (options : EmailOptions.t)
  (templateType : string) (recipientName : option string)
  (store' : EmailLog.t -> Awaited unit) (users' : Awaited (list User.t))
  (w : World) :
  let svc' :=
    {| env := env svc; isDevelopmentMode := isDevelopmentMode svc;
       transporter := transporter svc; createEmailLog := store';
       getUsers := users';
       generateRegistrationApprovedEmail :=
         generateRegistrationApprovedEmail svc;
       generateAdminNotificationEmail :=
         generateAdminNotificationEmail svc |} in
  fst (sendEmail svc' options templateType recipientName w)
  = fst (sendEmail svc options templateType recipientName w).
Proof. apply sendEmail_result_ignores_store_and_directory. Qed.

(** X28.  In the latest version a transport that rejects the first attempt
    with [null] or [undefined] makes [sendEmail] reject: the [TypeError]
    of [categorizeError] leaves [sendWithRetry] and [sendEmail], and no
    audit record is written. *)
Theorem sendEmail_nullish_rejection_escapes (svc : Service)
  (options : EmailOptions.t) (templateType : string)
  (recipientName : option string) (t : Transporter) (w : World) (d : Z)
  (e : JsVal) :
  Live svc t ->
  t (sendMailCalls w) (mailOptionsOf svc options) = (d, Throw e) ->
  isNullish e = true ->
  exists err w',
    sendEmail svc options templateType recipientName w = (Throw err, w')
    /\ auditRecords (events w') = auditRecords (events w).
Proof. apply sendEmail_raises_on_nullish_rejection. Qed.

Lemma sendEmail_nullish_rejection_escapes_witness :
  let t : Transporter := fun _ _ => (20, Throw (Prim JNull)) in
  let svc := Samples.liveService t Samples.stored Samples.users in
  Live svc t
  /\ exists err w',
      sendEmail svc Samples.options "registration_approved" (Some "Ann") world0
      = (Throw err, w')
      /\ auditRecords (events w') = [].
Proof.
  intros t svc.
  assert (L : Live svc t) by (split; reflexivity).
  split; [exact L|].
  exact (sendEmail_nullish_rejection_escapes svc Samples.options
           "registration_approved" (Some "Ann") t world0 20 (Prim JNull) L
           eq_refl eq_refl).
Defined.
